(** * dacite: schema-directed construction of dataclass instances

    A shallow embedding of [dacite/types.py] (type predicates, the
    runtime matcher [is_instance], the transformer [transform_value]) and
    of [dacite/core.py] (the builder [_build_value], union resolution,
    collection reconstruction and the record assembler [from_dict]),
    followed by the properties of the specification that concern them.

    Python objects are modelled by three inductive types: [Value] for
    runtime values, [PyClass] for runtime classes and [Ty] for the objects
    that occur in a type position (classes, [typing] aliases, and the
    objects [None], [Ellipsis] and [()] that the code itself puts or finds
    there).  Raising is explicit: every function that can raise returns a
    [result], and the recursion of the builder through declared
    dataclasses is bounded by a fuel argument whose exhaustion is kept
    apart from Python exceptions. *)

From Stdlib Require Import List ZArith String Bool Lia Arith.
Import ListNotations.
Local Open Scope string_scope.
Local Open Scope list_scope.

Set Implicit Arguments.
Set Warnings "-register-all".

(** ** Runtime classes *)

Module Py.

(** The classes the model knows: the builtin scalars and containers, the
    abstract [collections.abc.Mapping] (the origin of [typing.Mapping]),
    [type], numpy's [ndarray] (named by [skip_generic_conversion]) and
    user classes, identified by name.  The other abstract containers
    ([Sequence], [Collection], ...), subclasses of the builtin containers
    (named tuples, [defaultdict], ...) and the special forms of [typing]
    that are no classes ([Final], [ClassVar]) are outside the model. *)
Inductive PyClass : Type :=
| c_NoneType | c_bool | c_int | c_float | c_complex | c_str
| c_list | c_tuple | c_dict | c_set | c_frozenset
| c_Mapping
| c_type
| c_ndarray
| c_user (name : string).

Definition PyClass_eqb (a b : PyClass) : bool :=
  match a, b with
  | c_NoneType, c_NoneType | c_bool, c_bool | c_int, c_int
  | c_float, c_float | c_complex, c_complex | c_str, c_str
  | c_list, c_list | c_tuple, c_tuple | c_dict, c_dict
  | c_set, c_set | c_frozenset, c_frozenset
  | c_Mapping, c_Mapping | c_type, c_type | c_ndarray, c_ndarray => true
  | c_user n, c_user m => String.eqb n m
  | _, _ => false
  end.

(** [issubclass(a, b)] for two classes: reflexive, [bool] below [int],
    [dict] below [Mapping].  User classes do not inherit from each other
    in this model. *)
Definition issubclass (a b : PyClass) : bool :=
  PyClass_eqb a b ||
  match a, b with
  | c_bool, c_int => true
  | c_dict, c_Mapping => true
  | _, _ => false
  end.

(** [issubclass(origin, Collection)]: sized iterable containers. *)
Definition issubclass_Collection (c : PyClass) : bool :=
  match c with
  | c_str | c_list | c_tuple | c_dict | c_set | c_frozenset
  | c_Mapping | c_ndarray => true
  | _ => false
  end.

(** ** Runtime values *)

Unset Elimination Schemes.

(** A float is carried as opaque data (mantissa and exponent); nothing in
    the engine computes with it. *)
Inductive Value : Type :=
| VNone
| VBool (b : bool)
| VInt (z : Z)
| VFloat (m e : Z)
| VStr (s : string)
| VList (items : list Value)
| VTuple (items : list Value)
| VDict (items : list (Value * Value))
| VSet (items : list Value)
| VFrozenSet (items : list Value)
| VInstance (cls : string) (init_values post_init_values : list (string * Value))
| VClass (c : PyClass).

(** [value.__class__] *)
Definition class_of (v : Value) : PyClass :=
  match v with
  | VNone => c_NoneType
  | VBool _ => c_bool
  | VInt _ => c_int
  | VFloat _ _ => c_float
  | VStr _ => c_str
  | VList _ => c_list
  | VTuple _ => c_tuple
  | VDict _ => c_dict
  | VSet _ => c_set
  | VFrozenSet _ => c_frozenset
  | VInstance n _ _ => c_user n
  | VClass _ => c_type
  end.

(** The builtin [isinstance(value, cls)] for a class [cls]. *)
Definition isinstance (v : Value) (c : PyClass) : bool :=
  issubclass (class_of v) c.

(** Equality of values, used for dictionary keys, set elements and
    literal membership.  It is structural: Python's identifications across
    numeric types ([1 == True == 1.0]) and its order-insensitive
    comparison of dictionaries and sets are outside the model. *)
Fixpoint Value_eqb (a b : Value) {struct a} : bool :=
  let fix list_eqb (xs ys : list Value) {struct xs} : bool :=
    match xs, ys with
    | [], [] => true
    | x :: xs', y :: ys' => Value_eqb x y && list_eqb xs' ys'
    | _, _ => false
    end in
  let fix items_eqb (xs ys : list (Value * Value)) {struct xs} : bool :=
    match xs, ys with
    | [], [] => true
    | (k, x) :: xs', (l, y) :: ys' =>
        Value_eqb k l && Value_eqb x y && items_eqb xs' ys'
    | _, _ => false
    end in
  let fix fields_eqb (xs ys : list (string * Value)) {struct xs} : bool :=
    match xs, ys with
    | [], [] => true
    | (k, x) :: xs', (l, y) :: ys' =>
        String.eqb k l && Value_eqb x y && fields_eqb xs' ys'
    | _, _ => false
    end in
  match a, b with
  | VNone, VNone => true
  | VBool x, VBool y => Bool.eqb x y
  | VInt x, VInt y => Z.eqb x y
  | VFloat m e, VFloat m' e' => Z.eqb m m' && Z.eqb e e'
  | VStr x, VStr y => String.eqb x y
  | VList xs, VList ys => list_eqb xs ys
  | VTuple xs, VTuple ys => list_eqb xs ys
  | VDict xs, VDict ys => items_eqb xs ys
  | VSet xs, VSet ys => list_eqb xs ys
  | VFrozenSet xs, VFrozenSet ys => list_eqb xs ys
  | VInstance n i p, VInstance m j q =>
      String.eqb n m && fields_eqb i j && fields_eqb p q
  | VClass c, VClass d => PyClass_eqb c d
  | _, _ => false
  end.

(** Induction on values that reaches the elements of the containers. *)
Section ValueInduction.
Variable P : Value -> Prop.
Hypothesis HNone : P VNone.
Hypothesis HBool : forall b, P (VBool b).
Hypothesis HInt : forall z, P (VInt z).
Hypothesis HFloat : forall m e, P (VFloat m e).
Hypothesis HStr : forall s, P (VStr s).
Hypothesis HList : forall items, Forall P items -> P (VList items).
Hypothesis HTuple : forall items, Forall P items -> P (VTuple items).
Hypothesis HDict :
  forall items, Forall (fun kv => P (fst kv) /\ P (snd kv)) items -> P (VDict items).
Hypothesis HSet : forall items, Forall P items -> P (VSet items).
Hypothesis HFrozenSet : forall items, Forall P items -> P (VFrozenSet items).
Hypothesis HInstance :
  forall cls init_values post_init_values,
    Forall (fun kv => P (snd kv)) init_values ->
    Forall (fun kv => P (snd kv)) post_init_values ->
    P (VInstance cls init_values post_init_values).
Hypothesis HClass : forall c, P (VClass c).

Fixpoint Value_nested_ind (v : Value) : P v :=
  let fix all (xs : list Value) : Forall P xs :=
    match xs with
    | [] => @Forall_nil _ _
    | x :: xs' => @Forall_cons _ P x xs' (Value_nested_ind x) (all xs')
    end in
  let fix all_items (xs : list (Value * Value))
    : Forall (fun kv => P (fst kv) /\ P (snd kv)) xs :=
    match xs with
    | [] => @Forall_nil _ _
    | kv :: xs' =>
        @Forall_cons _ (fun kv => P (fst kv) /\ P (snd kv)) kv xs'
          (match kv as kv0 return P (fst kv0) /\ P (snd kv0) with
           | (k, x) => conj (Value_nested_ind k) (Value_nested_ind x)
           end)
          (all_items xs')
    end in
  let fix all_fields (xs : list (string * Value))
    : Forall (fun kv => P (snd kv)) xs :=
    match xs with
    | [] => @Forall_nil _ _
    | kv :: xs' =>
        @Forall_cons _ (fun kv => P (snd kv)) kv xs'
          (match kv as kv0 return P (snd kv0) with
           | (_, x) => Value_nested_ind x
           end)
          (all_fields xs')
    end in
  match v with
  | VNone => HNone
  | VBool b => HBool b
  | VInt z => HInt z
  | VFloat m e => HFloat m e
  | VStr s => HStr s
  | VList items => @HList items (all items)
  | VTuple items => @HTuple items (all items)
  | VDict items => @HDict items (all_items items)
  | VSet items => @HSet items (all items)
  | VFrozenSet items => @HFrozenSet items (all items)
  | VInstance cls i p => @HInstance cls i p (all_fields i) (all_fields p)
  | VClass c => HClass c
  end.
End ValueInduction.

(** ** Objects in type position *)

(** [TGeneric origin args] is a subscripted or bare [typing] alias:
    [List[int]] is [TGeneric c_list (Some [TClass c_int])], the bare
    [typing.List] is [TGeneric c_list None] (no [__args__], or
    [_special]).  [TType] is [Type[X]].  [TInitVar None] is the bare
    [InitVar].  [TEllipsis] and [TEmptyTuple] are the objects [...] and
    [()] found among the arguments of tuple aliases, and [TNoneObject] is
    the object [None] that [zip_longest] supplies as a fill value. *)
Inductive Ty : Type :=
| TAny
| TClass (c : PyClass)
| TUnion (args : list Ty)
| TGeneric (origin : PyClass) (args : option (list Ty))
| TLiteral (values : list Value)
| TNewType (name : string) (supertype : Ty)
| TInitVar (type : option Ty)
| TType (arg : Ty)
| TEllipsis
| TEmptyTuple
| TNoneObject.

Set Elimination Schemes.

(** [a == b] on such objects.  Two unions are equal when they have the same
    members in any order, as [typing] defines it; everything else is
    compared structurally. *)
Fixpoint Ty_eqb (a b : Ty) {struct a} : bool :=
  let fix list_eqb (xs ys : list Ty) {struct xs} : bool :=
    match xs, ys with
    | [], [] => true
    | x :: xs', y :: ys' => Ty_eqb x y && list_eqb xs' ys'
    | _, _ => false
    end in
  let fix subset (xs ys : list Ty) {struct xs} : bool :=
    match xs with
    | [] => true
    | x :: xs' => existsb (Ty_eqb x) ys && subset xs' ys
    end in
  let fix covers (xs : list Ty) (y : Ty) {struct xs} : bool :=
    match xs with
    | [] => false
    | x :: xs' => Ty_eqb x y || covers xs' y
    end in
  match a, b with
  | TAny, TAny => true
  | TClass c, TClass d => PyClass_eqb c d
  | TUnion xs, TUnion ys => subset xs ys && forallb (covers xs) ys
  | TGeneric o None, TGeneric p None => PyClass_eqb o p
  | TGeneric o (Some xs), TGeneric p (Some ys) => PyClass_eqb o p && list_eqb xs ys
  | TLiteral xs, TLiteral ys =>
      Nat.eqb (List.length xs) (List.length ys) &&
      forallb (fun p => Value_eqb (fst p) (snd p)) (combine xs ys)
  | TNewType n s, TNewType m t => String.eqb n m && Ty_eqb s t
  | TInitVar None, TInitVar None => true
  | TInitVar (Some s), TInitVar (Some t) => Ty_eqb s t
  | TType s, TType t => Ty_eqb s t
  | TEllipsis, TEllipsis => true
  | TEmptyTuple, TEmptyTuple => true
  | TNoneObject, TNoneObject => true
  | _, _ => false
  end.

End Py.
Export Py.

(** ** Results and exceptions *)

Module Exceptions.

(** Python's builtin exceptions that the engine can meet. *)
Inductive Builtin : Type :=
| KeyError | TypeError | ValueError | IndexError | AttributeError
| NameError | OtherException.

(** Modelled from the spec: [dacite/exceptions.py] is not part of the
    sources at hand.  The construction errors are the tagged variant of the
    data model: [WrongType], [MissingValue], [UnionMatchFailure] and
    [StrictUnionAmbiguous] are field errors and carry a dotted path,
    [UnexpectedKeys] carries the offending keys and
    [ForwardReferenceUnresolved] a message.  [Python] wraps every exception
    that is not a construction error. *)
Inductive Exc : Type :=
| ForwardReferenceError (message : string)
| WrongTypeError (field_path : option string) (field_type : Ty) (value : Value)
| MissingValueError (field_path : option string)
| UnexpectedDataError (keys : list Value)
| UnionMatchError (field_path : option string) (field_type : Ty) (value : Value)
| StrictUnionMatchError (field_path : option string) (union_matches : list (Ty * Value))
| Python (kind : Builtin) (message : string).

(** [isinstance(error, DaciteError)] *)
Definition is_DaciteError (e : Exc) : bool :=
  match e with
  | Python _ _ => false
  | _ => true
  end.

(** [isinstance(error, DaciteFieldError)] *)
Definition is_DaciteFieldError (e : Exc) : bool :=
  match e with
  | WrongTypeError _ _ _ | MissingValueError _
  | UnionMatchError _ _ _ | StrictUnionMatchError _ _ => true
  | _ => false
  end.

(** Modelled from the spec: an outer frame prepends its own field name to
    the relative path recorded so far. *)
Definition prefix_path (parent : string) (path : option string) : option string :=
  match path with
  | Some p => if String.eqb p "" then Some parent else Some (parent ++ "." ++ p)%string
  | None => Some parent
  end.

Definition update_path (parent : string) (e : Exc) : Exc :=
  match e with
  | WrongTypeError p t v => WrongTypeError (prefix_path parent p) t v
  | MissingValueError p => MissingValueError (prefix_path parent p)
  | UnionMatchError p t v => UnionMatchError (prefix_path parent p) t v
  | StrictUnionMatchError p m => StrictUnionMatchError (prefix_path parent p) m
  | _ => e
  end.

End Exceptions.
Export Exceptions.

(** The outcome of a call: a value, a raised exception, or [Timeout] when
    the fuel of the model ran out.  [Timeout] is not a Python exception: no
    [except] clause of the code catches it. *)
Inductive result (A : Type) : Type :=
| Ok (a : A)
| Raise (e : Exc)
| Timeout.

Arguments Ok {A} a.
Arguments Raise {A} e.
Arguments Timeout {A}.

Definition bind {A B : Type} (r : result A) (k : A -> result B) : result B :=
  match r with
  | Ok a => k a
  | Raise e => Raise e
  | Timeout => Timeout
  end.

Declare Scope result_scope.
Delimit Scope result_scope with result.
Notation "x <- r ;; k" := (bind r (fun x => k))
  (at level 61, r at next level, right associativity) : result_scope.
Notation "' pat <- r ;; k" := (bind r (fun x => match x with pat => k end))
  (at level 61, pat pattern, r at next level, right associativity) : result_scope.
Local Open Scope result_scope.

(** Generator expressions consumed by a constructor, [all] and [any]. *)
Section Iteration.
Context {A B : Type}.

(** [[f(x) for x in xs]], stopping at the first element that raises. *)
Definition map_r (f : A -> result B) : list A -> result (list B) :=
  fix go (xs : list A) : result (list B) :=
    match xs with
    | [] => Ok []
    | x :: xs' => y <- f x ;; ys <- go xs' ;; Ok (y :: ys)
    end.

(** [all(f(x) for x in xs)] *)
Definition all_r (f : A -> result bool) : list A -> result bool :=
  fix go (xs : list A) : result bool :=
    match xs with
    | [] => Ok true
    | x :: xs' => b <- f x ;; if b then go xs' else Ok false
    end.

(** [any(f(x) for x in xs)] *)
Definition any_r (f : A -> result bool) : list A -> result bool :=
  fix go (xs : list A) : result bool :=
    match xs with
    | [] => Ok false
    | x :: xs' => b <- f x ;; if b then Ok true else go xs'
    end.

(** [all(f(x, y) for x, y in zip(xs, ys))] *)
Definition all_zip_r (f : A -> B -> result bool) : list A -> list B -> result bool :=
  fix go (xs : list A) (ys : list B) {struct ys} : result bool :=
    match ys, xs with
    | y :: ys', x :: xs' => b <- f x y ;; if b then go xs' ys' else Ok false
    | _, _ => Ok true
    end.
End Iteration.

(** ** [dacite/types.py]: the type predicate library *)

Module Types.

(** What [__origin__] (or [__extra__]) can hold: a class, or one of the
    special forms [Union] and [Literal], which are not classes. *)
Inductive Origin : Type :=
| o_class (c : PyClass)
| o_Union
| o_Literal.

(** [hasattr(type_, "__origin__")] *)
Definition is_generic (type_ : Ty) : bool :=
  match type_ with
  | TUnion _ | TGeneric _ _ | TLiteral _ | TType _ => true
  | _ => false
  end.

(** [collection.__origin__]; [None] stands for the [AttributeError] of
    an object without that attribute. *)
Definition extract_origin_collection (collection : Ty) : option Origin :=
  match collection with
  | TUnion _ => Some o_Union
  | TGeneric origin _ => Some (o_class origin)
  | TLiteral _ => Some o_Literal
  | TType _ => Some (o_class c_type)
  | _ => None
  end.

Definition is_union (type_ : Ty) : bool :=
  match type_ with
  | TUnion _ => true
  | _ => false
  end.

Definition skip_generic_conversion (origin : PyClass) : bool :=
  PyClass_eqb origin c_ndarray.

(** [issubclass(origin, Collection)] raises [TypeError] on the special
    forms, which the code turns into [False]. *)
Definition is_generic_collection (type_ : Ty) : bool :=
  if negb (is_generic type_) then false
  else
    match extract_origin_collection type_ with
    | Some (o_class origin) =>
        issubclass_Collection origin && negb (skip_generic_conversion origin)
    | _ => false
    end.

(** [type_.__args__ or defaults], with [defaults] for a bare alias and for
    an object without arguments.  The arguments of a [Literal] are values:
    [extract_literal] reads them. *)
Definition extract_generic (type_ : Ty) (defaults : list Ty) : list Ty :=
  match type_ with
  | TUnion args | TGeneric _ (Some args) =>
      match args with
      | [] => defaults
      | _ => args
      end
  | TType arg => [arg]
  | _ => defaults
  end.

Definition extract_literal (type_ : Ty) : list Value :=
  match type_ with
  | TLiteral values => values
  | _ => []
  end.

Definition extract_generic_no_defaults (type_ : Ty) : option (list Ty) :=
  match type_ with
  | TUnion args => Some args
  | TGeneric _ args => args
  | TType arg => Some [arg]
  | _ => None
  end.

(** [issubclass(sub_type, base_type)] with [TypeError] turned into
    [False]: both sides have to be classes (a bare alias is accepted as a
    base). *)
Definition is_subclass (sub_type base_type : Ty) : bool :=
  let sub :=
    if is_generic_collection sub_type then
      match extract_origin_collection sub_type with
      | Some (o_class origin) => Some origin
      | _ => None
      end
    else
      match sub_type with
      | TClass c => Some c
      | _ => None
      end in
  match sub, base_type with
  | Some c, TClass d => issubclass c d
  | Some c, TGeneric d None => issubclass c d
  | _, _ => false
  end.

Definition extract_origin_type (collection : Ty) : option Ty :=
  match extract_origin_collection collection with
  | Some (o_class c_list) => Some (TGeneric c_list None)
  | Some (o_class c_dict) => Some (TGeneric c_dict None)
  | _ => None
  end.

Definition NoneType : Ty := TClass c_NoneType.

Definition is_optional (type_ : Ty) : bool :=
  is_union type_ && existsb (Ty_eqb NoneType) (extract_generic type_ []).

(** [m is not type(None)] *)
Definition is_not_NoneType (member : Ty) : bool :=
  match member with
  | TClass c_NoneType => false
  | _ => true
  end.

(** [Union[params]]: nested unions are flattened, equal members are kept
    once, and a union of one member is that member. *)
Definition Union_getitem (params : list Ty) : Ty :=
  let flat :=
    flat_map (fun p => match p with TUnion args => args | _ => [p] end) params in
  let unique :=
    fold_left (fun acc p => if existsb (Ty_eqb p) acc then acc else acc ++ [p])
              flat [] in
  match unique with
  | [member] => member
  | _ => TUnion unique
  end.

Definition extract_optional (optional : Ty) : result Ty :=
  let other_members := filter is_not_NoneType (extract_generic optional []) in
  match other_members with
  | [] => Raise (Python ValueError "can not find not-none value")
  | _ => Ok (Union_getitem other_members)
  end.

Definition is_tuple (type_ : Ty) : bool :=
  is_subclass type_ (TClass c_tuple).

Definition is_literal (type_ : Ty) : bool :=
  match type_ with
  | TLiteral _ => true
  | _ => false
  end.

Definition is_new_type (type_ : Ty) : bool :=
  match type_ with
  | TNewType _ _ => true
  | _ => false
  end.

(** [type_.__supertype__]; only called under [is_new_type]. *)
Definition extract_new_type (type_ : Ty) : Ty :=
  match type_ with
  | TNewType _ supertype => supertype
  | _ => type_
  end.

Definition is_init_var (type_ : Ty) : bool :=
  match type_ with
  | TInitVar _ => true
  | _ => false
  end.

Definition is_set (type_ : PyClass) : bool :=
  match type_ with
  | c_set | c_frozenset => true
  | _ => false
  end.

(** [type_.type], and [Any] on [AttributeError].  The bare class
    [InitVar] is taken as on the interpreters where it has no attribute
    [type], so that the [except] branch is the one that runs for it;
    where the class declares [type] as a slot, the attribute is a
    descriptor object, which [Ty] does not represent. *)
Definition extract_init_var (type_ : Ty) : Ty :=
  match type_ with
  | TInitVar (Some t) => t
  | _ => TAny
  end.

Definition is_type_generic (type_ : Ty) : bool :=
  match extract_origin_collection type_ with
  | Some (o_class c_type) => true
  | _ => false
  end.

(** A byte of the form [10xxxxxx], which continues a code point in the
    UTF-8 encoding of a string. *)
Definition is_continuation_byte (a : Ascii.ascii) : bool :=
  let n := Ascii.nat_of_ascii a in
  Nat.leb 128 n && Nat.ltb n 192.

(** The characters of a [str], which Python keeps as a sequence of code
    points: in the UTF-8 encoding that [string] holds, each byte that
    starts a code point, together with the bytes that continue it. *)
Fixpoint code_points (s : string) : list string :=
  match s with
  | EmptyString => []
  | String a rest =>
      let chunks := code_points rest in
      match rest with
      | String b _ =>
          if is_continuation_byte b then
            match chunks with
            | chunk :: chunks' => String a chunk :: chunks'
            | [] => [String a EmptyString]
            end
          else String a EmptyString :: chunks
      | EmptyString => [String a EmptyString]
      end
  end.

(** [for item in value]: the elements a value yields when it is iterated,
    [TypeError] when it is not iterable.  A string yields its characters,
    a dictionary its keys.  Instances of dataclasses and classes are taken
    not to define [__iter__]. *)
Definition iterate (value : Value) : result (list Value) :=
  match value with
  | VList items | VTuple items | VSet items | VFrozenSet items => Ok items
  | VDict items => Ok (map fst items)
  | VStr s => Ok (map VStr (code_points s))
  | _ => Raise (Python TypeError "object is not iterable")
  end.

(** [value.items()] of a mapping. *)
Definition dict_items (value : Value) : result (list (Value * Value)) :=
  match value with
  | VDict items => Ok items
  | _ => Raise (Python AttributeError "object has no attribute 'items'")
  end.

(** [tuple_types[0]] and the like. *)
Definition index {A : Type} (xs : list A) (i : nat) : result A :=
  match nth_error xs i with
  | Some x => Ok x
  | None => Raise (Python IndexError "tuple index out of range")
  end.

(** [a, b = xs] *)
Definition unpack2 {A : Type} (xs : list A) : result (A * A) :=
  match xs with
  | [a; b] => Ok (a, b)
  | _ => Raise (Python ValueError "wrong number of values to unpack")
  end.

(** [len(xs) > i and p(xs[i])] *)
Definition nth_is {A : Type} (p : A -> bool) (xs : list A) (i : nat) : bool :=
  match nth_error xs i with
  | Some x => p x
  | None => false
  end.

Definition is_Any (type_ : Ty) : bool :=
  match type_ with
  | TAny => true
  | _ => false
  end.

Definition is_Ellipsis (type_ : Ty) : bool :=
  match type_ with
  | TEllipsis => true
  | _ => false
  end.

Definition is_empty_tuple_object (type_ : Ty) : bool :=
  match type_ with
  | TEmptyTuple => true
  | _ => false
  end.

(** The last branch of [is_instance]: the numeric tower, then the builtin
    [isinstance], whose [TypeError] on an object that is not a class gives
    [False]. *)
Definition is_instance_scalar (value : Value) (type_ : Ty) : bool :=
  match type_ with
  | TClass c =>
      if (isinstance value c_int || isinstance value c_float)
         && (PyClass_eqb c c_float || PyClass_eqb c c_complex)
      then true
      else isinstance value c
  | _ => false
  end.

(** [is_subclass(value, base)] where the first argument is a runtime
    value: only a class object can be a subclass. *)
Definition is_subclass_value (value : Value) (base_type : Ty) : bool :=
  match value with
  | VClass c => is_subclass (TClass c) base_type
  | _ => false
  end.

(** One unfolding of [is_instance], written as the source has it, over the
    function [rec] that stands for the recursive calls. *)
Definition is_instance_body (rec : Value -> Ty -> result bool)
    (value : Value) (type_ : Ty) : result bool :=
  if is_Any type_ then Ok true
  else if is_union type_ then
    any_r (fun t => rec value t) (extract_generic type_ [])
  else if is_generic_collection type_ then
    match extract_origin_collection type_ with
    | Some (o_class origin) =>
        if negb (isinstance value origin) then Ok false
        else
          match extract_generic_no_defaults type_ with
          | None => Ok true
          | Some _ =>
              if isinstance value c_tuple && is_tuple type_ then
                let tuple_types := extract_generic type_ [] in
                items <- iterate value ;;
                if Nat.eqb (List.length tuple_types) 1
                   && nth_is is_empty_tuple_object tuple_types 0
                then Ok (Nat.eqb (List.length items) 0)
                else if Nat.eqb (List.length tuple_types) 2
                        && nth_is is_Ellipsis tuple_types 1
                then
                  all_r (fun item => t <- index tuple_types 0 ;; rec item t) items
                else if negb (Nat.eqb (List.length tuple_types) (List.length items))
                then Ok false
                else all_zip_r rec items tuple_types
              else if isinstance value c_Mapping then
                ' (key_type, val_type) <- unpack2 (extract_generic type_ [TAny; TAny]) ;;
                pairs <- dict_items value ;;
                all_r (fun kv =>
                         k <- rec (fst kv) key_type ;;
                         if negb k then Ok false
                         else v <- rec (snd kv) val_type ;; Ok v)
                      pairs
              else
                items <- iterate value ;;
                all_r (fun item =>
                         t <- index (extract_generic type_ [TAny]) 0 ;;
                         rec item t)
                      items
          end
    | _ => Raise (Python AttributeError "__origin__")
    end
  else if is_new_type type_ then rec value (extract_new_type type_)
  else if is_literal type_ then Ok (existsb (Value_eqb value) (extract_literal type_))
  else if is_init_var type_ then rec value (extract_init_var type_)
  else if is_type_generic type_ then
    t <- index (extract_generic type_ []) 0 ;;
    Ok (is_subclass_value value t)
  else if is_generic type_ then
    match extract_origin_collection type_ with
    | Some (o_class origin) => Ok (isinstance value origin)
    | _ => Raise (Python TypeError "isinstance() arg 2 must be a type")
    end
  else Ok (is_instance_scalar value type_).

End Types.
Export Types.

(** ** The runtime value matcher *)

Module Matcher.

(** [is_instance(value, type_)].  The function recurses on the declared
    type: into the members of a union, the arguments of a collection
    alias, the supertype of a [NewType] and the type of an [InitVar].
    Where the source recurses on a default [Any], the result [True] is
    written out.  [is_instance_unfold] below states that this is the
    function of the source, [is_instance_body]. *)
Fixpoint is_instance (value : Value) (type_ : Ty) {struct type_} : result bool :=
  match type_ with
  | TAny => Ok true
  | TUnion args => any_r (fun t => is_instance value t) args
  | TGeneric origin oargs =>
      if issubclass_Collection origin && negb (skip_generic_conversion origin) then
        if negb (isinstance value origin) then Ok false
        else
          match oargs with
          | None => Ok true
          | Some args =>
              if isinstance value c_tuple && is_tuple type_ then
                items <- iterate value ;;
                if Nat.eqb (List.length args) 1
                   && nth_is is_empty_tuple_object args 0
                then Ok (Nat.eqb (List.length items) 0)
                else if Nat.eqb (List.length args) 2
                        && nth_is is_Ellipsis args 1
                then
                  match args with
                  | t0 :: _ => all_r (fun item => is_instance item t0) items
                  | [] => Ok true
                  end
                else if negb (Nat.eqb (List.length args) (List.length items))
                then Ok false
                else all_zip_r (fun item t => is_instance item t) items args
              else if isinstance value c_Mapping then
                match args with
                | [] =>
                    pairs <- dict_items value ;;
                    all_r (fun _ => Ok true) pairs
                | [key_type; val_type] =>
                    pairs <- dict_items value ;;
                    all_r (fun kv =>
                             k <- is_instance (fst kv) key_type ;;
                             if negb k then Ok false
                             else v <- is_instance (snd kv) val_type ;; Ok v)
                          pairs
                | _ => Raise (Python ValueError "wrong number of values to unpack")
                end
              else
                items <- iterate value ;;
                match args with
                | [] => all_r (fun _ => Ok true) items
                | t0 :: _ => all_r (fun item => is_instance item t0) items
                end
          end
      else if PyClass_eqb origin c_type then
        match oargs with
        | Some (t :: _) => Ok (is_subclass_value value t)
        | _ => Raise (Python IndexError "tuple index out of range")
        end
      else Ok (isinstance value origin)
  | TNewType _ supertype => is_instance value supertype
  | TLiteral values => Ok (existsb (Value_eqb value) values)
  | TInitVar (Some t) => is_instance value t
  | TInitVar None => Ok true
  | TType arg => Ok (is_subclass_value value arg)
  | TClass _ | TEllipsis | TEmptyTuple | TNoneObject =>
      Ok (is_instance_scalar value type_)
  end.

End Matcher.
Export Matcher.

(** ** [dacite/config.py] *)

Definition Hook : Type := Value -> result Value.

Record Config : Type := {
  type_hooks : list (Ty * Hook);
  cast : list Ty;
  forward_references : option (list (string * Ty));
  check_types : bool;
  strict : bool;
  strict_unions_match : bool;
  allow_missing_fields_as_none : bool
}.

(** [Config()] *)
Definition default_config : Config := {|
  type_hooks := [];
  cast := [];
  forward_references := None;
  check_types := true;
  strict := false;
  strict_unions_match := false;
  allow_missing_fields_as_none := false
|}.

(** ** Dictionaries and containers *)

Module Containers.

Section Dict.
Context {K V : Type} (eqb : K -> K -> bool).

(** [d.get(key)] on a dictionary kept as the list of its items in
    insertion order. *)
Fixpoint dict_get (key : K) (d : list (K * V)) : option V :=
  match d with
  | [] => None
  | (k, v) :: d' => if eqb key k then Some v else dict_get key d'
  end.

(** [key in d] *)
Definition dict_contains (key : K) (d : list (K * V)) : bool :=
  match dict_get key d with
  | Some _ => true
  | None => false
  end.

(** [d[key] = value]: an existing key keeps its position. *)
Fixpoint dict_set (key : K) (value : V) (d : list (K * V)) : list (K * V) :=
  match d with
  | [] => [(key, value)]
  | (k, v) :: d' =>
      if eqb key k then (k, value) :: d' else (k, v) :: dict_set key value d'
  end.

(** [dict(pairs)] *)
Definition dict_of_pairs (pairs : list (K * V)) : list (K * V) :=
  fold_left (fun d kv => dict_set (fst kv) (snd kv) d) pairs [].
End Dict.

(** [set(items)], kept in the order of first occurrence.  Elements are
    told apart by [Value_eqb], that is structurally: the model is that of
    Python on elements that are hashable and among which no two numbers of
    different classes are equal ([1], [True] and [1.0] are one element of
    a Python set, and a list or a dictionary is refused as an element with
    [TypeError]). *)
Definition set_of_items (items : list Value) : list Value :=
  fold_left (fun acc x => if existsb (Value_eqb x) acc then acc else acc ++ [x])
            items [].

(** [cls(item for item in ...)]: a container class applied to the elements
    a generator produced.  A dictionary wants pairs. *)
Definition construct (cls : PyClass) (items : list Value) : result Value :=
  match cls with
  | c_list => Ok (VList items)
  | c_tuple => Ok (VTuple items)
  | c_set => Ok (VSet (set_of_items items))
  | c_frozenset => Ok (VFrozenSet (set_of_items items))
  | c_dict =>
      pairs <- map_r (fun item =>
                        match item with
                        | VTuple [k; v] | VList [k; v] => Ok (k, v)
                        | _ => Raise (Python TypeError
                                 "cannot convert dictionary update sequence element")
                        end) items ;;
      Ok (VDict (dict_of_pairs Value_eqb pairs))
  | _ => Raise (Python TypeError "not a container class of the model")
  end.

(** [cls((key, value) for ...)] for the class of a mapping. *)
Definition construct_mapping (cls : PyClass) (pairs : list (Value * Value))
  : result Value :=
  match cls with
  | c_dict => Ok (VDict (dict_of_pairs Value_eqb pairs))
  | _ => Raise (Python TypeError "not a mapping class of the model")
  end.

(** The constructors of the builtin containers applied to one value, as
    a cast does: the value is iterated, a dictionary is copied. *)
Definition call_container (cls : PyClass) (value : Value) : result Value :=
  match cls, value with
  | c_dict, VDict items => Ok (VDict items)
  | _, _ => items <- iterate value ;; construct cls items
  end.

End Containers.
Export Containers.

(** ** The value transformer *)

Module Transformer.

(** What the hook and cast stage of [transform_value] leaves: a value to
    go on with, or the value of an early [return]. *)
Inductive Flow : Type :=
| Continue (value : Value)
| Return (value : Value).

Section WithRuntime.
(** [cls(value)] for a class of the cast list: the constructors of the
    Python runtime and of user classes. *)
Variable call : PyClass -> Value -> result Value.

Definition hook_lookup (key : Ty) (hooks : list (Ty * Hook)) : option Hook :=
  dict_get Ty_eqb key hooks.

(** [if key in type_hooks: value = type_hooks[key](value)] *)
Definition apply_hook (hooks : list (Ty * Hook)) (key : Ty) (value : Value)
  : result Value :=
  match hook_lookup key hooks with
  | Some hook => hook value
  | None => Ok value
  end.

(** The body of the cast loop for the first [cast_type] that the target
    type is a subclass of. *)
Definition apply_cast (target_type : Ty) (value : Value) : result Flow :=
  if is_generic_collection target_type then
    match extract_origin_collection target_type with
    | Some (o_class origin_collection) =>
        if is_set origin_collection then
          items <- iterate value ;; Ok (Return (VList items))
        else
          v <- call origin_collection value ;; Ok (Continue v)
    | _ => Raise (Python AttributeError "__origin__")
    end
  else
    match target_type with
    | TClass c => v <- call c value ;; Ok (Continue v)
    | _ => Raise (Python TypeError "object is not callable")
    end.

(** The exact hook, or else the cast list. *)
Definition hook_or_cast (hooks : list (Ty * Hook)) (cast : list Ty)
    (target_type : Ty) (value : Value) : result Flow :=
  match hook_lookup target_type hooks with
  | Some hook => v <- hook value ;; Ok (Continue v)
  | None =>
      match find (is_subclass target_type) cast with
      | Some _ => apply_cast target_type value
      | None => Ok (Continue value)
      end
  end.

(** From "Peel optional types" to the end of [transform_value], over the
    function [rec] that stands for the recursive calls. *)
Definition peel_and_recurse (rec : Ty -> Value -> result Value)
    (target_type : Ty) (value : Value) : result Value :=
  if is_optional target_type then
    match value with
    | VNone => Ok VNone
    | _ =>
        target_type <- extract_optional target_type ;;
        rec target_type value
    end
  else if is_generic_collection target_type
          && match extract_origin_collection target_type with
             | Some (o_class origin) => isinstance value origin
             | _ => false
             end
  then
    let collection_cls := class_of value in
    if issubclass collection_cls c_dict then
      ' (key_cls, item_cls) <- unpack2 (extract_generic target_type [TAny; TAny]) ;;
      pairs <- dict_items value ;;
      transformed <- map_r (fun kv =>
                              k <- rec key_cls (fst kv) ;;
                              v <- rec item_cls (snd kv) ;;
                              Ok (k, v)) pairs ;;
      construct_mapping collection_cls (dict_of_pairs Value_eqb transformed)
    else
      item_cls <- index (extract_generic target_type [TAny]) 0 ;;
      items <- iterate value ;;
      transformed <- map_r (rec item_cls) items ;;
      construct collection_cls transformed
  else Ok value.

Definition transform_value_body (rec : Ty -> Value -> result Value)
    (hooks : list (Ty * Hook)) (cast : list Ty)
    (target_type : Ty) (value : Value) : result Value :=
  value <- apply_hook hooks TAny value ;;
  value <- (if is_generic_collection target_type then
              match extract_origin_type target_type with
              | Some collection_type => apply_hook hooks collection_type value
              | None => Ok value
              end
            else Ok value) ;;
  flow <- hook_or_cast hooks cast target_type value ;;
  match flow with
  | Return v => Ok v
  | Continue value => peel_and_recurse rec target_type value
  end.

(** [transform_value(type_hooks, cast, target_type, value)]; each
    recursive call spends one unit of fuel. *)
Fixpoint transform_value (fuel : nat) (hooks : list (Ty * Hook)) (cast : list Ty)
    (target_type : Ty) (value : Value) {struct fuel} : result Value :=
  match fuel with
  | O => Timeout
  | S fuel' =>
      transform_value_body (transform_value fuel' hooks cast)
                           hooks cast target_type value
  end.
End WithRuntime.

End Transformer.
Export Transformer.

(** ** Dataclasses *)

Module Dataclasses.

(** A [dataclasses.Field]: its name, its annotation, whether it takes part
    in the constructor, and its declared default if it has one. *)
Record Field : Type := {
  name : string;
  type : Ty;
  init : bool;
  default : option Value
}.

(** [field.type = hint] on the copy that [from_dict] makes. *)
Definition set_type (field : Field) (hint : Ty) : Field :=
  {| name := name field; type := hint; init := init field;
     default := default field |}.

Definition DictData : Type := list (string * Value).

(** A dataclass as the engine sees it: its fields ([get_fields]), what
    [typing.get_type_hints] answers for it in a given namespace, which is
    a [NameError] when a forward reference does not resolve, and the
    alternate entry point [from_dict] when the class has that attribute. *)
Record DataClass : Type := {
  class_name : string;
  fields : list Field;
  get_type_hints : option (list (string * Ty)) -> result (list (string * Ty));
  custom_from_dict : option (list (Value * Value) -> Config -> result Value)
}.

(** What the engine takes from outside [types.py] and [core.py]: the
    constructors of the runtime, the dataclasses that are declared, and the
    two helpers of [dacite/dataclasses.py], which is not among the sources
    at hand.  [get_default_value_for_field] answers [None] where the
    helper raises [DefaultValueNotFoundError]. *)
Record Runtime : Type := {
  call : PyClass -> Value -> result Value;
  classes : string -> option DataClass;
  get_default_value_for_field : Field -> bool -> option Value;
  create_instance : DataClass -> DictData -> DictData -> result Value
}.

(** Modelled from the spec: the default-value helper of
    [dacite/dataclasses.py].  A declared default is supplied; without one,
    a null value stands in when [allow_missing_fields_as_none] permits it
    and the declared type accepts null; otherwise there is no default. *)
Definition spec_get_default_value_for_field (field : Field)
    (allow_missing_fields_as_none : bool) : option Value :=
  match default field with
  | Some v => Some v
  | None =>
      if allow_missing_fields_as_none && is_optional (type field)
      then Some VNone
      else None
  end.

(** Modelled from the spec: the instance constructor of
    [dacite/dataclasses.py].  The record is constructed from the
    constructor-participating values, and the other values are applied
    afterwards. *)
Definition spec_create_instance (data_class : DataClass)
    (init_values post_init_values : DictData) : result Value :=
  Ok (VInstance (class_name data_class) init_values post_init_values).

(** Modelled from the spec: [Data] of [dacite/data.py], the map-like raw
    value of a record, a mapping from strings to anything. *)
Definition Data : Ty := TGeneric c_Mapping (Some [TClass c_str; TAny]).

End Dataclasses.
Export Dataclasses.

(** ** [dacite/core.py]: the builder and the record assembler *)

Module Core.

(** The outcome of probing one member of a union: the member matched and
    built [value], or it was skipped; either way [data] is what the
    variable [data] of the loop holds afterwards. *)
Inductive Probe : Type :=
| Matched (data value : Value)
| Skipped (data : Value).

(** The outcome of the whole loop over the members: a [return] from
    inside the loop, or the end of the loop with the final [data] and the
    matches recorded. *)
Inductive Scan : Type :=
| Found (value : Value)
| Exhausted (data : Value) (union_matches : list (Ty * Value)).

(** [zip_longest(xs, ys)] with the fill values written out. *)
Fixpoint zip_longest {A B : Type} (fill_a : A) (fill_b : B)
    (xs : list A) (ys : list B) : list (A * B) :=
  match xs, ys with
  | [], [] => []
  | x :: xs', [] => (x, fill_b) :: zip_longest fill_a fill_b xs' []
  | [], y :: ys' => (fill_a, y) :: map (fun y => (fill_a, y)) ys'
  | x :: xs', y :: ys' => (x, y) :: zip_longest fill_a fill_b xs' ys'
  end.

(** [try: ... except DaciteFieldError as error: error.update_path(name); raise] *)
Definition with_field_path {A : Type} (field_name : string) (r : result A)
  : result A :=
  match r with
  | Raise e =>
      if is_DaciteFieldError e then Raise (update_path field_name e) else Raise e
  | _ => r
  end.

Section OneLevel.
Variable rt : Runtime.
Variable config : Config.
(** The fuel handed to the transformer, and the builder of the level
    below, which stands for the recursive calls of [_build_value]. *)
Variable fuel : nat.
Variable rec : Ty -> Value -> result Value.

Definition transform (target_type : Ty) (value : Value) : result Value :=
  transform_value (call rt) fuel (type_hooks config) (cast config)
                  target_type value.

(** [is_dataclass(type_)], with the class found. *)
Definition dataclass_of (type_ : Ty) : option DataClass :=
  match type_ with
  | TClass (c_user n) => classes rt n
  | _ => None
  end.

Definition get_data_class_hints (data_class : DataClass)
    (globalns : option (list (string * Ty))) : result (list (string * Ty)) :=
  type_hints <- get_type_hints data_class globalns ;;
  Ok (map (fun '(attr, type_hint) =>
             if is_init_var type_hint then (attr, extract_init_var type_hint)
             else (attr, type_hint)) type_hints).

(** One round of the loop of [from_dict] over the declared fields. *)
Definition from_dict_field (data_class_hints : list (string * Ty))
    (data : list (Value * Value)) (values : DictData * DictData)
    (field : Field) : result (DictData * DictData) :=
  let '(init_values, post_init_values) := values in
  hint <- match dict_get String.eqb (name field) data_class_hints with
          | Some hint => Ok hint
          | None => Raise (Python KeyError (name field))
          end ;;
  let field := set_type field hint in
  let bind_value (value : Value) :=
    if init field
    then Ok (dict_set String.eqb (name field) value init_values, post_init_values)
    else Ok (init_values, dict_set String.eqb (name field) value post_init_values) in
  match dict_get Value_eqb (VStr (name field)) data with
  | Some field_data =>
      value <- with_field_path (name field)
                 (transformed_value <- transform (type field) field_data ;;
                  rec (type field) transformed_value) ;;
      wrong <- (if check_types config
                then b <- is_instance value (type field) ;; Ok (negb b)
                else Ok false) ;;
      if wrong
      then Raise (WrongTypeError (Some (name field)) (type field) value)
      else bind_value value
  | None =>
      if negb (init field) then Ok values
      else
        match get_default_value_for_field rt field
                (allow_missing_fields_as_none config) with
        | Some value => bind_value value
        | None => Raise (MissingValueError (Some (name field)))
        end
  end.

(** [for field in data_class_fields: ...] *)
Fixpoint from_dict_fields (data_class_hints : list (string * Ty))
    (data : list (Value * Value)) (values : DictData * DictData)
    (data_class_fields : list Field) : result (DictData * DictData) :=
  match data_class_fields with
  | [] => Ok values
  | field :: rest =>
      values' <- from_dict_field data_class_hints data values field ;;
      from_dict_fields data_class_hints data values' rest
  end.

(** [set(data.keys()) - {f.name for f in data_class_fields}] *)
Definition extra_keys (data : list (Value * Value))
    (data_class_fields : list Field) : list Value :=
  filter (fun key =>
            negb (existsb (fun f => Value_eqb key (VStr (name f)))
                          data_class_fields))
         (set_of_items (map fst data)).

Definition from_dict_body (data_class : DataClass)
    (data : list (Value * Value)) : result Value :=
  data_class_hints <-
    match get_data_class_hints data_class (forward_references config) with
    | Raise (Python NameError error) => Raise (ForwardReferenceError error)
    | r => r
    end ;;
  let data_class_fields := fields data_class in
  _ <- (if strict config then
          let extra_fields := extra_keys data data_class_fields in
          match extra_fields with
          | [] => Ok tt
          | _ => Raise (UnexpectedDataError extra_fields)
          end
        else Ok tt) ;;
  ' (init_values, post_init_values) <-
    from_dict_fields data_class_hints data ([], []) data_class_fields ;;
  create_instance rt data_class init_values post_init_values.

(** The body of the loop of [_build_value_for_union] for one member. *)
Definition probe (inner_type : Ty) (data : Value) : result Probe :=
  match transform inner_type data with
  | Raise _ => Ok (Skipped data)
  | Timeout => Timeout
  | Ok data =>
      match (value <- rec inner_type data ;;
             conforms <- is_instance value inner_type ;;
             Ok (value, conforms)) with
      | Ok (value, true) => Ok (Matched data value)
      | Ok (_, false) => Ok (Skipped data)
      | Raise e => if is_DaciteError e then Ok (Skipped data) else Raise e
      | Timeout => Timeout
      end
  end.

(** [for inner_type in types: ...] *)
Fixpoint scan (types : list Ty) (data : Value)
    (union_matches : list (Ty * Value)) : result Scan :=
  match types with
  | [] => Ok (Exhausted data union_matches)
  | inner_type :: rest =>
      p <- probe inner_type data ;;
      match p with
      | Matched data value =>
          if strict_unions_match config
          then scan rest data (dict_set Ty_eqb inner_type value union_matches)
          else Ok (Found value)
      | Skipped data => scan rest data union_matches
      end
  end.

(** [union_matches.popitem()[1]] *)
Definition popitem_value (union_matches : list (Ty * Value)) : result Value :=
  match rev union_matches with
  | (_, value) :: _ => Ok value
  | [] => Raise (Python KeyError "popitem(): dictionary is empty")
  end.

Definition _build_value_for_union (union : Ty) (data : Value) : result Value :=
  let types := extract_generic union [] in
  if is_optional union && Nat.eqb (List.length types) 2 then
    t0 <- index types 0 ;; rec t0 data
  else
    s <- scan types data [] ;;
    match s with
    | Found value => Ok value
    | Exhausted data union_matches =>
        if strict_unions_match config then
          if Nat.ltb 1 (List.length union_matches)
          then Raise (StrictUnionMatchError None union_matches)
          else popitem_value union_matches
        else if negb (check_types config) then Ok data
        else Raise (UnionMatchError None union data)
    end.

Definition _build_value_for_collection (collection : Ty) (data : Value)
  : result Value :=
  let data_type := class_of data in
  is_mapping <- is_instance data (TGeneric c_Mapping None) ;;
  if is_mapping then
    item_type <- index (extract_generic collection [TAny; TAny]) 1 ;;
    pairs <- dict_items data ;;
    built <- map_r (fun '(key, value) =>
                      v <- rec item_type value ;; Ok (key, v)) pairs ;;
    construct_mapping data_type built
  else
    is_a_tuple <- is_instance data (TClass c_tuple) ;;
    if is_a_tuple then
      items <- iterate data ;;
      match items with
      | [] => construct data_type []
      | _ =>
          let types := extract_generic collection [] in
          if Nat.eqb (List.length types) 2 && nth_is is_Ellipsis types 1 then
            built <- map_r (fun item => t0 <- index types 0 ;; rec t0 item) items ;;
            construct data_type built
          else
            built <- map_r (fun '(item, type_) => rec type_ item)
                           (zip_longest VNone TNoneObject items types) ;;
            construct data_type built
      end
    else
      item_type <- index (extract_generic collection [TAny]) 0 ;;
      items <- iterate data ;;
      built <- map_r (rec item_type) items ;;
      construct data_type built.

Definition _build_value_body (type_ : Ty) (data : Value) : result Value :=
  let type_ := if is_init_var type_ then extract_init_var type_ else type_ in
  if is_union type_ then _build_value_for_union type_ data
  else if is_generic_collection type_ then
    match extract_origin_collection type_ with
    | Some (o_class origin) =>
        is_origin <- is_instance data (TClass origin) ;;
        if is_origin then _build_value_for_collection type_ data
        else if is_set origin then
          items <- iterate data ;;
          built <- map_r (fun single_val =>
                            t0 <- index (extract_generic type_ []) 0 ;;
                            rec t0 single_val) items ;;
          construct origin built
        else Ok data
    | _ => Raise (Python AttributeError "__origin__")
    end
  else
    match dataclass_of type_ with
    | Some data_class =>
        is_data <- is_instance data Data ;;
        if is_data then
          pairs <- dict_items data ;;
          match custom_from_dict data_class with
          | Some entry_point => entry_point pairs config
          | None => from_dict_body data_class pairs
          end
        else Ok data
    | None => Ok data
    end.
End OneLevel.

(** [_build_value(type_, data, config)]; each level of recursion spends
    one unit of fuel. *)
Fixpoint _build_value (rt : Runtime) (config : Config) (fuel : nat)
    (type_ : Ty) (data : Value) {struct fuel} : result Value :=
  match fuel with
  | O => Timeout
  | S fuel' =>
      _build_value_body rt config fuel (_build_value rt config fuel') type_ data
  end.

(** [from_dict(data_class, data, config)] *)
Definition from_dict (rt : Runtime) (fuel : nat) (data_class : DataClass)
    (data : list (Value * Value)) (config : option Config) : result Value :=
  let config := match config with Some c => c | None => default_config end in
  from_dict_body rt config fuel (_build_value rt config fuel) data_class data.

End Core.
Export Core.

(** ** The vocabulary of the properties *)

Module Terms.

Section Probing.
Variable rt : Runtime.
Variable config : Config.
Variable fuel : nat.
Variable rec : Ty -> Value -> result Value.

(** A member of a union is skipped, and leaves [data'] in the variable
    [data] of the loop, in three ways: its transform raised (and [data] is
    kept), its build raised a construction error, or the built value does
    not conform. *)
Inductive member_skipped (inner_type : Ty) (data : Value) : Value -> Prop :=
| skipped_transform_raised e :
    transform rt config fuel inner_type data = Raise e ->
    member_skipped inner_type data data
| skipped_build_raised data' e :
    transform rt config fuel inner_type data = Ok data' ->
    rec inner_type data' = Raise e ->
    is_DaciteError e = true ->
    member_skipped inner_type data data'
| skipped_not_conforming data' value :
    transform rt config fuel inner_type data = Ok data' ->
    rec inner_type data' = Ok value ->
    is_instance value inner_type = Ok false ->
    member_skipped inner_type data data'.

(** A member matches: its transform and its build succeed and the built
    value conforms. *)
Definition member_matches (inner_type : Ty) (data data' value : Value) : Prop :=
  transform rt config fuel inner_type data = Ok data' /\
  rec inner_type data' = Ok value /\
  is_instance value inner_type = Ok true.

(** A run of members is skipped one after the other, each starting from
    the [data] the one before left. *)
Inductive members_skipped : list Ty -> Value -> Value -> Prop :=
| skipped_nil data : members_skipped [] data data
| skipped_cons inner_type rest data data' data'' :
    member_skipped inner_type data data' ->
    members_skipped rest data' data'' ->
    members_skipped (inner_type :: rest) data data''.
End Probing.

(** The unions that go through the scan: all but the two-member
    Optional. *)
Definition general_path (union : Ty) : bool :=
  negb (is_optional union && Nat.eqb (List.length (extract_generic union [])) 2).

(** The arguments of a fixed heterogeneous tuple alias: neither the single
    [()] of the empty tuple type nor the [(T, ...)] of the homogeneous
    one. *)
Definition fixed_form (tuple_types : list Ty) : bool :=
  negb (Nat.eqb (List.length tuple_types) 1
        && nth_is is_empty_tuple_object tuple_types 0)
  && negb (Nat.eqb (List.length tuple_types) 2
           && nth_is is_Ellipsis tuple_types 1).

(** A collection alias whose origin is [set] or [frozenset]. *)
Definition is_set_collection (type_ : Ty) : bool :=
  is_generic_collection type_
  && match extract_origin_collection type_ with
     | Some (o_class origin) => is_set origin
     | _ => false
     end.

End Terms.
Export Terms.

(** ** A concrete runtime for the examples *)

Module Examples.

(** The constructors of the builtin classes as far as the model determines
    them: a container is built from the elements of its argument, a scalar
    class accepts a value that is already one of its instances. *)
Definition builtin_call (cls : PyClass) (value : Value) : result Value :=
  match cls with
  | c_list | c_tuple | c_set | c_frozenset | c_dict => call_container cls value
  | _ =>
      if isinstance value cls then Ok value
      else Raise (Python TypeError "constructor argument outside the model")
  end.

(** A runtime over a table of declared dataclasses, with the helpers of
    [dacite/dataclasses.py] as the specification describes them. *)
Definition runtime (table : list (string * DataClass)) : Runtime := {|
  call := builtin_call;
  classes := fun n => dict_get String.eqb n table;
  get_default_value_for_field := spec_get_default_value_for_field;
  create_instance := spec_create_instance
|}.

(** A dataclass without forward references or custom entry point; the
    type hints are the annotations of the fields. *)
Definition dataclass (n : string) (fs : list Field) : DataClass := {|
  class_name := n;
  fields := fs;
  get_type_hints := fun _ => Ok (map (fun f => (name f, type f)) fs);
  custom_from_dict := None
|}.

Definition field (n : string) (t : Ty) : Field :=
  {| name := n; type := t; init := true; default := None |}.

Definition int : Ty := TClass c_int.
Definition str : Ty := TClass c_str.
Definition List (t : Ty) : Ty := TGeneric c_list (Some [t]).
Definition Set_ (t : Ty) : Ty := TGeneric c_set (Some [t]).
Definition Tuple (ts : list Ty) : Ty := TGeneric c_tuple (Some ts).
Definition Optional (t : Ty) : Ty := TUnion [t; NoneType].

End Examples.


(** ** The inputs of the examples *)

Module Inputs.
Import Examples.
Local Open Scope Z_scope.

Definition config_with (hooks : list (Ty * Hook)) (casts : list Ty)
    (strict_unions : bool) : Config := {|
  type_hooks := hooks;
  cast := casts;
  forward_references := None;
  check_types := true;
  strict := false;
  strict_unions_match := strict_unions;
  allow_missing_fields_as_none := false
|}.

(** [Config(strict_unions_match=True)] *)
Definition strict_unions : Config := config_with [] [] true.

(** [Config(strict=True)] *)
Definition strict_keys : Config := {|
  type_hooks := [];
  cast := [];
  forward_references := None;
  check_types := true;
  strict := true;
  strict_unions_match := false;
  allow_missing_fields_as_none := false
|}.

(** [Config(cast=[list])] *)
Definition cast_to_list : Config := config_with [] [TClass c_list] false.

(** [lambda v: v + 1] *)
Definition increment : Hook := fun v =>
  match v with
  | VInt z => Ok (VInt (z + 1))
  | _ => Raise (Python TypeError "unsupported operand type(s) for +")
  end.

(** [lambda v: list(reversed(v))] *)
Definition reversed : Hook := fun v =>
  items <- iterate v ;; Ok (VList (rev items)).

(** [lambda v: 0 if v is None else v] *)
Definition none_to_zero : Hook := fun v =>
  match v with
  | VNone => Ok (VInt 0)
  | _ => Ok v
  end.

(** [Config(type_hooks={List[int]: reversed, int: increment})] *)
Definition list_and_element_hooks : list (Ty * Hook) :=
  [(List int, reversed); (int, increment)].


(** [Config(type_hooks={Any: none_to_zero})] *)
Definition wildcard_hook : Config := config_with [(TAny, none_to_zero)] [] false.

(** A record with one field [value: Union[int, str]]. *)
Definition IntOrStr : DataClass :=
  dataclass "IntOrStr" [field "value" (TUnion [int; str])].

(** A record with one field [n: Optional[int]]. *)
Definition MaybeInt : DataClass :=
  dataclass "MaybeInt" [field "n" (Optional int)].

(** A record with one field [pair: Tuple[int, int]]. *)
Definition Pair : DataClass :=
  dataclass "Pair" [field "pair" (Tuple [int; int])].

(** A record with one field [a: int]. *)
Definition OnlyA : DataClass := dataclass "OnlyA" [field "a" int].

(** A record with one field [x: int = "oops"], whose declared default
    does not conform to the declared type. *)
Definition BadDefault : DataClass :=
  dataclass "BadDefault"
    [{| name := "x"; type := int; init := true; default := Some (VStr "oops") |}].

Definition one_two : list Value := [VInt 1; VInt 2].
Definition one_two_three : list Value := [VInt 1; VInt 2; VInt 3].

(** The float 1.5. *)
Definition one_and_a_half : Value := VFloat 3 (-1).

End Inputs.

(** ** Measures and well-formedness *)

Module Measures.

(** The size of an object in type position.  A collection alias weighs
    two, so that the [Any] that stands in for a missing argument is
    smaller than the alias it is the default of. *)
Fixpoint ty_size (t : Ty) : nat :=
  match t with
  | TUnion args => 1 + list_sum (map ty_size args)
  | TGeneric _ (Some args) => 2 + list_sum (map ty_size args)
  | TGeneric _ None => 2
  | TNewType _ supertype => 1 + ty_size supertype
  | TInitVar (Some t') => 1 + ty_size t'
  | TType arg => 1 + ty_size arg
  | _ => 1
  end.

(** No element of [xs] equals an element met before it, [seen] being the
    elements met so far: the elements of a set, the keys of a
    dictionary. *)
Fixpoint distinct {A : Type} (eqb : A -> A -> bool) (seen xs : list A) : bool :=
  match xs with
  | [] => true
  | x :: xs' => negb (existsb (eqb x) seen) && distinct eqb (seen ++ [x]) xs'
  end.

(** A value as Python has it: the elements of a set are pairwise distinct
    and so are the keys of a dictionary, at every depth of the lists,
    tuples, sets and dictionaries. *)
Fixpoint well_formed (v : Value) : bool :=
  match v with
  | VList items | VTuple items => forallb well_formed items
  | VSet items | VFrozenSet items =>
      distinct Value_eqb [] items && forallb well_formed items
  | VDict items =>
      distinct Value_eqb [] (map fst items)
      && forallb (fun kv => well_formed (fst kv) && well_formed (snd kv)) items
  | _ => true
  end.

(** The values that no [for] loop accepts: [None] and the numbers. *)
Definition is_scalar (v : Value) : bool :=
  match v with
  | VNone | VBool _ | VInt _ | VFloat _ _ => true
  | _ => false
  end.

(** The origins of the container aliases of [typing]: [List], [Tuple],
    [Dict], [Set], [FrozenSet] and [Mapping]. *)
Definition container_origin (origin : PyClass) : bool :=
  match origin with
  | c_list | c_tuple | c_dict | c_set | c_frozenset | c_Mapping => true
  | _ => false
  end.

(** The declared types on which the matcher is total: [Any], classes,
    [Literal], [NewType], [InitVar[T]], [Type[X]], unions, and the
    container aliases, bare or with arguments, a mapping alias having no
    argument or two; and so for the objects inside. *)
Fixpoint well_formed_type (t : Ty) : bool :=
  match t with
  | TUnion args => forallb well_formed_type args
  | TGeneric origin (Some args) =>
      container_origin origin
      && (if issubclass c_dict origin
          then Nat.eqb (List.length args) 0 || Nat.eqb (List.length args) 2
          else true)
      && forallb well_formed_type args
  | TGeneric origin None => container_origin origin
  | TNewType _ supertype => well_formed_type supertype
  | TInitVar (Some t') => well_formed_type t'
  | TInitVar None => false
  | TType arg => well_formed_type arg
  | _ => true
  end.

(** A declared type as [typing] builds it, as far as the transformer looks
    at it: the members of a union are no unions themselves and not all
    null, the origin of an alias is one of the containers, a mapping alias
    has no argument or two, and so for the members and the arguments. *)
Fixpoint transformable (t : Ty) : bool :=
  match t with
  | TUnion args =>
      forallb (fun member => negb (is_union member)) args
      && existsb is_not_NoneType args
      && forallb transformable args
  | TGeneric origin (Some args) =>
      container_origin origin
      && (if issubclass c_dict origin
          then Nat.eqb (List.length args) 0 || Nat.eqb (List.length args) 2
          else true)
      && forallb transformable args
  | TGeneric origin None => container_origin origin
  | _ => true
  end.

(** Induction on the objects in type position that reaches the arguments
    of unions and aliases. *)
Section TyInduction.
Variable P : Ty -> Prop.
Hypothesis HAny : P TAny.
Hypothesis HClass : forall c, P (TClass c).
Hypothesis HUnion : forall args, Forall P args -> P (TUnion args).
Hypothesis HGeneric : forall origin args, Forall P args -> P (TGeneric origin (Some args)).
Hypothesis HBare : forall origin, P (TGeneric origin None).
Hypothesis HLiteral : forall values, P (TLiteral values).
Hypothesis HNewType : forall n supertype, P supertype -> P (TNewType n supertype).
Hypothesis HInitVar : forall t, P t -> P (TInitVar (Some t)).
Hypothesis HBareInitVar : P (TInitVar None).
Hypothesis HType : forall arg, P arg -> P (TType arg).
Hypothesis HEllipsis : P TEllipsis.
Hypothesis HEmptyTuple : P TEmptyTuple.
Hypothesis HNoneObject : P TNoneObject.

Fixpoint Ty_nested_ind (t : Ty) : P t :=
  let fix all (xs : list Ty) : Forall P xs :=
    match xs with
    | [] => @Forall_nil _ _
    | x :: xs' => @Forall_cons _ P x xs' (Ty_nested_ind x) (all xs')
    end in
  match t with
  | TAny => HAny
  | TClass c => HClass c
  | TUnion args => @HUnion args (all args)
  | TGeneric origin (Some args) => @HGeneric origin args (all args)
  | TGeneric origin None => HBare origin
  | TLiteral values => HLiteral values
  | TNewType n supertype => @HNewType n supertype (Ty_nested_ind supertype)
  | TInitVar (Some t') => @HInitVar t' (Ty_nested_ind t')
  | TInitVar None => HBareInitVar
  | TType arg => @HType arg (Ty_nested_ind arg)
  | TEllipsis => HEllipsis
  | TEmptyTuple => HEmptyTuple
  | TNoneObject => HNoneObject
  end.
End TyInduction.

End Measures.
Export Measures.

(** ** Flat records *)

Module Records.

(** The fields of a flat record with the values bound to them: the raw
    record and the values the constructor receives. *)
Definition raw_record (bound : list (Field * Value)) : list (Value * Value) :=
  map (fun fv => (VStr (name (fst fv)), snd fv)) bound.

Definition init_values_of (bound : list (Field * Value)) : DictData :=
  map (fun fv => (name (fst fv), snd fv)) bound.

Definition annotations (fs : list Field) : list (string * Ty) :=
  map (fun f => (name f, type f)) fs.

(** A constructor field of a plain class (no alias, no declared
    dataclass) bound to a value that conforms to that class. *)
Definition plain_binding (rt : Runtime) (fv : Field * Value) : Prop :=
  init (fst fv) = true
  /\ exists c,
       type (fst fv) = TClass c
       /\ dataclass_of rt (TClass c) = None
       /\ is_instance (snd fv) (TClass c) = Ok true.

(** A record [a: int, b: int] without defaults. *)
Definition TwoInts : DataClass :=
  Examples.dataclass "TwoInts"
    [Examples.field "a" Examples.int; Examples.field "b" Examples.int].

(** A record whose annotation [node: "Node"] names a class that no
    namespace defines. *)
Definition Dangling : DataClass := {|
  class_name := "Dangling";
  fields := [Examples.field "node" (TClass (c_user "Node"))];
  get_type_hints := fun _ => Raise (Python NameError "name 'Node' is not defined");
  custom_from_dict := None
|}.

End Records.
Export Records.

(** * Properties *)

Unset Implicit Arguments.

(** ** The matcher *)

Module MatcherProperties.
Import Examples Inputs.

(** [is_instance] satisfies the equation of the source function. *)
Lemma is_instance_unfold (value : Value) (type_ : Ty) :
  is_instance value type_ = is_instance_body is_instance value type_.
Proof.
  destruct type_ as [ |c|args|origin oargs|values|name sup|[t|]|arg| | | ];
    try reflexivity.
  - destruct args; reflexivity.
  - unfold is_instance_body, is_generic_collection.
    cbn [is_Any is_union is_generic negb extract_origin_collection].
    cbn [is_instance].
    destruct (issubclass_Collection origin && negb (skip_generic_conversion origin))
      eqn:Ecoll.
    + destruct (negb (isinstance value origin)); [reflexivity|].
      destruct oargs as [args|]; [|reflexivity].
      cbn [extract_generic_no_defaults].
      destruct (isinstance value c_tuple && is_tuple (TGeneric origin (Some args))).
      * replace (extract_generic (TGeneric origin (Some args)) []) with args
          by (destruct args; reflexivity).
        destruct (iterate value) as [items| |]; try reflexivity. cbn [bind].
        destruct (Nat.eqb (List.length args) 1 && nth_is is_empty_tuple_object args 0);
          [reflexivity|].
        destruct (Nat.eqb (List.length args) 2 && nth_is is_Ellipsis args 1) eqn:Eell;
          [|reflexivity].
        destruct args as [|t0 rest]; [discriminate Eell|reflexivity].
      * destruct (isinstance value c_Mapping).
        -- destruct args as [|kt [|vt [|x rest]]]; try reflexivity.
        -- destruct args as [|t0 rest]; reflexivity.
    + cbn [is_new_type is_literal is_init_var is_type_generic extract_origin_collection].
      destruct origin; try reflexivity.
      destruct oargs as [[|t rest]|]; reflexivity.
Qed.

(** The conformance test of a tuple against a tuple alias with arguments,
    as the three branches of the source. *)
Lemma is_instance_tuple (items : list Value) (tuple_types : list Ty) :
  is_instance (VTuple items) (Tuple tuple_types) =
  if Nat.eqb (List.length tuple_types) 1
     && nth_is is_empty_tuple_object tuple_types 0
  then Ok (Nat.eqb (List.length items) 0)
  else if Nat.eqb (List.length tuple_types) 2 && nth_is is_Ellipsis tuple_types 1
  then match tuple_types with
       | t0 :: _ => all_r (fun item => is_instance item t0) items
       | [] => Ok true
       end
  else if negb (Nat.eqb (List.length tuple_types) (List.length items))
  then Ok false
  else all_zip_r is_instance items tuple_types.
Proof. reflexivity. Qed.

(** [all(f(x, y) for x, y in zip(xs, ys))] over two lists of one length
    is true exactly when [f] is true at every position. *)
Lemma all_zip_r_true {A B : Type} (f : A -> B -> result bool) (xs : list A) :
  forall ys : list B,
    List.length ys = List.length xs ->
    (all_zip_r f xs ys = Ok true <-> Forall2 (fun x y => f x y = Ok true) xs ys).
Proof.
  induction xs as [|x xs IH]; intros [|y ys] Hlen; try discriminate Hlen.
  - split; [constructor|reflexivity].
  - injection Hlen as Hlen. simpl. split.
    + intros H. destruct (f x y) as [[|]| |] eqn:Hf; try discriminate H.
      constructor; [exact Hf|]. apply (IH ys Hlen). exact H.
    + intros H. inversion H as [|? ? ? ? Hf Hrest]; subst.
      rewrite Hf. simpl. apply (IH ys Hlen). exact Hrest.
Qed.

(** Only a tuple conforms to a tuple alias. *)
Lemma tuple_alias_wants_tuple (value : Value) (tuple_types : list Ty) :
  is_instance value (Tuple tuple_types) = Ok true ->
  exists items, value = VTuple items.
Proof.
  destruct value; try (intros H; discriminate H).
  intros _. exists items. reflexivity.
Qed.

(** C8.  For a fixed heterogeneous tuple type the conformance test
    requires a tuple of exactly the declared length whose element at each
    position conforms to the type declared at that position: it answers
    [True] for such values and no others.  On a tuple of another length it
    returns [False] and does not raise.  In particular [(1, 2, 3)] does
    not conform to [Tuple[int, int]], and [from_dict] with type checking
    enabled rejects it for the field [pair] with [WrongTypeError]. *)
Theorem fixed_tuple_conformance :
  forall (tuple_types : list Ty),
    fixed_form tuple_types = true ->
    (forall value,
        is_instance value (Tuple tuple_types) = Ok true
        <-> exists items,
              value = VTuple items
              /\ List.length items = List.length tuple_types
              /\ Forall2 (fun item item_type => is_instance item item_type = Ok true)
                         items tuple_types)
    /\ (forall items,
          List.length items <> List.length tuple_types ->
          is_instance (VTuple items) (Tuple tuple_types) = Ok false)
    /\ is_instance (VTuple one_two_three) (Tuple [int; int]) = Ok false
    /\ (forall n : nat,
          from_dict (runtime []) (S (S n)) Pair
                    [(VStr "pair", VTuple one_two_three)] None
          = Raise (WrongTypeError (Some "pair") (Tuple [int; int])
                                  (VTuple one_two_three))).
Proof.
  intros tuple_types Hfixed.
  unfold fixed_form in Hfixed. apply andb_true_iff in Hfixed.
  destruct Hfixed as [Hempty Hell].
  apply negb_true_iff in Hempty. apply negb_true_iff in Hell.
  assert (Hmismatch : forall items,
             List.length items <> List.length tuple_types ->
             is_instance (VTuple items) (Tuple tuple_types) = Ok false).
  { intros items Hlen. rewrite is_instance_tuple, Hempty, Hell.
    replace (Nat.eqb (List.length tuple_types) (List.length items)) with false
      by (symmetry; apply Nat.eqb_neq; congruence).
    reflexivity. }
  assert (Hmatch : forall items,
             List.length items = List.length tuple_types ->
             is_instance (VTuple items) (Tuple tuple_types)
             = all_zip_r is_instance items tuple_types).
  { intros items Hlen. rewrite is_instance_tuple, Hempty, Hell, Hlen.
    rewrite Nat.eqb_refl. reflexivity. }
  split; [|split; [exact Hmismatch|split]].
  - intros value. split.
    + intros H. destruct (tuple_alias_wants_tuple value tuple_types H) as [items ->].
      exists items. split; [reflexivity|].
      destruct (Nat.eq_dec (List.length items) (List.length tuple_types)) as [Hlen|Hlen].
      * split; [exact Hlen|].
        rewrite (Hmatch items Hlen) in H.
        apply (all_zip_r_true is_instance items tuple_types); congruence.
      * rewrite (Hmismatch items Hlen) in H. discriminate H.
    + intros (items & -> & Hlen & Hall).
      rewrite (Hmatch items Hlen).
      apply (all_zip_r_true is_instance items tuple_types); congruence.
  - reflexivity.
  - intros n. reflexivity.
Qed.

Lemma fixed_tuple_conformance_witness :
  fixed_form [int; int] = true
  /\ is_instance (VTuple one_two_three) (Tuple [int; int]) = Ok false
  /\ is_instance (VTuple one_two) (Tuple [int; int]) = Ok true.
Proof.
  split; [reflexivity|]. split.
  - apply (proj1 (proj2 (fixed_tuple_conformance [int; int] eq_refl))).
    simpl. lia.
  - apply (proj1 (fixed_tuple_conformance [int; int] eq_refl)).
    exists one_two. split; [reflexivity|]. split; [reflexivity|].
    repeat constructor.
Defined.

End MatcherProperties.

(** ** Union resolution *)

Module UnionProperties.
Import Examples Inputs.

Section Scan.
Variable rt : Runtime.
Variable config : Config.
Variable fuel : nat.
Variable rec : Ty -> Value -> result Value.

Lemma probe_skipped inner_type data data' :
  member_skipped rt config fuel rec inner_type data data' ->
  probe rt config fuel rec inner_type data = Ok (Skipped data').
Proof.
  unfold probe.
  intros [e Ht | d e Ht Hb He | d v Ht Hb Hi]; rewrite Ht; try reflexivity.
  - rewrite Hb. simpl. rewrite He. reflexivity.
  - rewrite Hb. simpl. rewrite Hi. reflexivity.
Qed.

Lemma probe_matched inner_type data data' value :
  member_matches rt config fuel rec inner_type data data' value ->
  probe rt config fuel rec inner_type data = Ok (Matched data' value).
Proof.
  unfold probe. intros (Ht & Hb & Hi).
  rewrite Ht, Hb. simpl. rewrite Hi. reflexivity.
Qed.

(** A skipped member hands the loop over to the next one with the [data]
    it left. *)
Lemma scan_skip inner_type rest data data' union_matches :
  member_skipped rt config fuel rec inner_type data data' ->
  scan rt config fuel rec (inner_type :: rest) data union_matches
  = scan rt config fuel rec rest data' union_matches.
Proof.
  intros H. simpl. rewrite (probe_skipped _ _ _ H). reflexivity.
Qed.

Lemma scan_skipped pre : forall post data data' union_matches,
  members_skipped rt config fuel rec pre data data' ->
  scan rt config fuel rec (pre ++ post) data union_matches
  = scan rt config fuel rec post data' union_matches.
Proof.
  induction pre as [|t pre IH]; intros post data data' m H.
  - inversion H; subst. reflexivity.
  - inversion H as [|t' rest d d1 d2 H1 H2]; subst.
    rewrite <- app_comm_cons, (scan_skip _ _ _ _ _ H1). apply IH. assumption.
Qed.

Lemma _build_value_for_union_general union data :
  general_path union = true ->
  _build_value_for_union rt config fuel rec union data =
  (s <- scan rt config fuel rec (extract_generic union []) data [] ;;
   match s with
   | Found value => Ok value
   | Exhausted data union_matches =>
       if strict_unions_match config then
         if Nat.ltb 1 (List.length union_matches)
         then Raise (StrictUnionMatchError None union_matches)
         else popitem_value union_matches
       else if negb (check_types config) then Ok data
       else Raise (UnionMatchError None union data)
   end).
Proof.
  unfold general_path, _build_value_for_union. intros H.
  apply negb_true_iff in H. rewrite H. reflexivity.
Qed.

(** What strict mode does once the scan is over: one recorded match is
    returned, several are reported as ambiguous, and with none the
    dictionary is empty and [popitem] raises [KeyError]. *)
Lemma strict_after_scan union data data' union_matches :
  general_path union = true ->
  strict_unions_match config = true ->
  scan rt config fuel rec (extract_generic union []) data []
    = Ok (Exhausted data' union_matches) ->
  _build_value_for_union rt config fuel rec union data =
  match union_matches with
  | [] => Raise (Python KeyError "popitem(): dictionary is empty")
  | [(_, value)] => Ok value
  | _ => Raise (StrictUnionMatchError None union_matches)
  end.
Proof.
  intros Hg Hs Hscan.
  rewrite (_build_value_for_union_general _ _ Hg), Hscan. simpl. rewrite Hs.
  destruct union_matches as [|[t v] [|p rest]]; reflexivity.
Qed.

(** The two-member Optional is built against [types[0]], whichever member
    that is. *)
Lemma _build_value_for_union_fast_path first second data :
  is_optional (TUnion [first; second]) = true ->
  _build_value_for_union rt config fuel rec (TUnion [first; second]) data
  = rec first data.
Proof.
  unfold _build_value_for_union. intros H. rewrite H. reflexivity.
Qed.

Lemma first_match_in_relaxed_mode pre inner_type post data data' data'' value :
  strict_unions_match config = false ->
  general_path (TUnion (pre ++ inner_type :: post)) = true ->
  members_skipped rt config fuel rec pre data data' ->
  member_matches rt config fuel rec inner_type data' data'' value ->
  _build_value_for_union rt config fuel rec (TUnion (pre ++ inner_type :: post)) data
  = Ok value.
Proof.
  intros Hrelaxed Hg Hpre Hm.
  rewrite (_build_value_for_union_general _ _ Hg).
  replace (extract_generic (TUnion (pre ++ inner_type :: post)) [])
    with (pre ++ inner_type :: post) by (destruct pre; reflexivity).
  rewrite (scan_skipped _ _ _ _ _ Hpre). simpl.
  rewrite (probe_matched _ _ _ _ Hm). simpl. rewrite Hrelaxed. reflexivity.
Qed.

(** [except DaciteError: pass] lets every other exception of a member's
    build through: it ends the loop, in either mode, whatever the members
    after it would have done. *)
Lemma other_exception_leaves_the_scan pre inner_type post data data' data'' e :
  general_path (TUnion (pre ++ inner_type :: post)) = true ->
  members_skipped rt config fuel rec pre data data' ->
  transform rt config fuel inner_type data' = Ok data'' ->
  rec inner_type data'' = Raise e ->
  is_DaciteError e = false ->
  _build_value_for_union rt config fuel rec (TUnion (pre ++ inner_type :: post)) data
  = Raise e.
Proof.
  intros Hg Hpre Ht Hb He.
  rewrite (_build_value_for_union_general _ _ Hg).
  replace (extract_generic (TUnion (pre ++ inner_type :: post)) [])
    with (pre ++ inner_type :: post) by (destruct pre; reflexivity).
  rewrite (scan_skipped _ _ _ _ _ Hpre). simpl.
  unfold probe. rewrite Ht, Hb. simpl. rewrite He. reflexivity.
Qed.
End Scan.

(** C1 (defect of the code).  In [strict_unions_match] mode a union none of
    whose members matches does not end in [UnionMatchError]: for
    [Union[int, str]] and the float 1.5 no match is recorded,
    [union_matches.popitem()] is called on the empty dictionary and the
    builtin [KeyError] is raised, which is what [from_dict] raises too for
    the record with that field.  In relaxed mode the same input ends in
    [UnionMatchError]. *)
Theorem strict_union_without_match_raises_KeyError :
  forall n : nat,
    _build_value (runtime []) strict_unions (S (S n))
                 (TUnion [int; str]) one_and_a_half
    = Raise (Python KeyError "popitem(): dictionary is empty")
    /\ from_dict (runtime []) (S (S n)) IntOrStr
                 [(VStr "value", one_and_a_half)] (Some strict_unions)
       = Raise (Python KeyError "popitem(): dictionary is empty")
    /\ _build_value (runtime []) default_config (S (S n))
                    (TUnion [int; str]) one_and_a_half
       = Raise (UnionMatchError None (TUnion [int; str]) one_and_a_half).
Proof.
  intros n. split; [|split]; reflexivity.
Qed.

(** C5 (defect of the code).  The fast path of the two-member Optional
    builds against [types[0]].  For [Union[None, Set[int]]], whose first
    member is the null type, the list [[1, 2]] is therefore built against
    [NoneType] and comes back unchanged, where [Union[Set[int], None]], the
    same union declared in the other order, builds it against [Set[int]]
    into the set [{1, 2}]. *)
Theorem optional_fast_path_depends_on_member_order :
  forall n : nat,
    _build_value (runtime []) default_config (S (S (S n)))
                 (TUnion [NoneType; Set_ int]) (VList one_two)
    = Ok (VList one_two)
    /\ _build_value (runtime []) default_config (S (S (S n)))
                    (TUnion [Set_ int; NoneType]) (VList one_two)
       = Ok (VSet one_two)
    /\ _build_value (runtime []) default_config (S (S n))
                    (Set_ int) (VList one_two)
       = Ok (VSet one_two).
Proof.
  intros n. split; [|split]; reflexivity.
Qed.

(** C6, the claim as stated fails.  For [Union[Set[int], int]] and the
    integer 5 the first member whose transform and build both succeed and
    whose value conforms is [int]: the build of [Set[int]] does not
    succeed, it iterates over the integer and raises [TypeError].  The
    union does not return 5: [TypeError] is no [DaciteError], so it leaves
    the loop before [int] is tried. *)
Lemma relaxed_union_raises_before_later_match :
  let rt := runtime [] in
  let rec := _build_value rt default_config 2 in
  strict_unions_match default_config = false
  /\ transform rt default_config 3 (Set_ int) (VInt 5) = Ok (VInt 5)
  /\ rec (Set_ int) (VInt 5) = Raise (Python TypeError "object is not iterable")
  /\ member_matches rt default_config 3 rec int (VInt 5) (VInt 5) (VInt 5)
  /\ _build_value rt default_config 3 (TUnion [Set_ int; int]) (VInt 5)
     = Raise (Python TypeError "object is not iterable")
  /\ _build_value rt default_config 3 (TUnion [Set_ int; int]) (VInt 5)
     <> Ok (VInt 5).
Proof.
  intros rt rec. repeat split; try reflexivity. discriminate.
Qed.

(** C6, amended.  In relaxed mode a union that goes through the scan (every
    union but the two-member Optional) returns the value of the first
    member, in declaration order, whose transform, applied to the data the
    members before it left, and whose build succeed and whose built value
    conforms, provided every member before it was skipped by the loop: its
    transform raised, its build raised a construction error
    ([DaciteError]), or its built value did not conform.  Hence, when two
    members both match the raw value, each order of declaration returns
    the value built by the member declared first.  When instead the build
    of a member raises any other exception, the members before it having
    been skipped, the union ends with that exception, whatever the members
    after it are. *)
Theorem relaxed_union_first_match_wins :
  forall rt config fuel rec,
    strict_unions_match config = false ->
    (forall pre inner_type post data data' data'' value,
        general_path (TUnion (pre ++ inner_type :: post)) = true ->
        members_skipped rt config fuel rec pre data data' ->
        member_matches rt config fuel rec inner_type data' data'' value ->
        _build_value_for_union rt config fuel rec
                               (TUnion (pre ++ inner_type :: post)) data
        = Ok value)
    /\ (forall t1 t2 data d1 v1 d2 v2,
          general_path (TUnion [t1; t2]) = true ->
          general_path (TUnion [t2; t1]) = true ->
          member_matches rt config fuel rec t1 data d1 v1 ->
          member_matches rt config fuel rec t2 data d2 v2 ->
          _build_value_for_union rt config fuel rec (TUnion [t1; t2]) data = Ok v1
          /\ _build_value_for_union rt config fuel rec (TUnion [t2; t1]) data = Ok v2)
    /\ (forall pre inner_type post data data' data'' e,
          general_path (TUnion (pre ++ inner_type :: post)) = true ->
          members_skipped rt config fuel rec pre data data' ->
          transform rt config fuel inner_type data' = Ok data'' ->
          rec inner_type data'' = Raise e ->
          is_DaciteError e = false ->
          _build_value_for_union rt config fuel rec
                                 (TUnion (pre ++ inner_type :: post)) data
          = Raise e).
Proof.
  intros rt config fuel rec Hrelaxed. split; [|split].
  - intros pre inner_type post data data' data'' value Hg Hpre Hm.
    exact (first_match_in_relaxed_mode rt config fuel rec pre inner_type post
             data data' data'' value Hrelaxed Hg Hpre Hm).
  - intros t1 t2 data d1 v1 d2 v2 Hg12 Hg21 H1 H2. split.
    + exact (first_match_in_relaxed_mode rt config fuel rec [] t1 [t2]
               data data d1 v1 Hrelaxed Hg12 (skipped_nil _ _ _ _ data) H1).
    + exact (first_match_in_relaxed_mode rt config fuel rec [] t2 [t1]
               data data d2 v2 Hrelaxed Hg21 (skipped_nil _ _ _ _ data) H2).
  - intros pre inner_type post data data' data'' e Hg Hpre Ht Hb He.
    exact (other_exception_leaves_the_scan rt config fuel rec pre inner_type post
             data data' data'' e Hg Hpre Ht Hb He).
Qed.

Lemma relaxed_union_first_match_wins_witness :
  let rt := runtime [] in
  let rec := _build_value rt default_config 2 in
  _build_value_for_union rt default_config 3 rec
                         (TUnion [int; Set_ int; List int]) (VList one_two)
  = Ok (VSet one_two)
  /\ (_build_value_for_union rt default_config 3 rec
                             (TUnion [Set_ int; List int]) (VList one_two)
      = Ok (VSet one_two)
      /\ _build_value_for_union rt default_config 3 rec
                                (TUnion [List int; Set_ int]) (VList one_two)
         = Ok (VList one_two))
  /\ _build_value_for_union rt default_config 3 rec
                            (TUnion [str; Set_ int; int]) (VInt 5)
     = Raise (Python TypeError "object is not iterable").
Proof.
  intros rt rec.
  pose proof (relaxed_union_first_match_wins rt default_config 3 rec eq_refl)
    as [Hfirst [Horder Hother]].
  split; [|split].
  - apply (Hfirst [int] (Set_ int) [List int]
                  (VList one_two) (VList one_two) (VList one_two)).
    + reflexivity.
    + apply skipped_cons with (data' := VList one_two).
      * apply skipped_not_conforming with (value := VList one_two); reflexivity.
      * apply skipped_nil.
    + repeat split; reflexivity.
  - apply (Horder (Set_ int) (List int) (VList one_two)
                  (VList one_two) (VSet one_two) (VList one_two) (VList one_two)).
    + reflexivity.
    + reflexivity.
    + repeat split; reflexivity.
    + repeat split; reflexivity.
  - apply (Hother [str] (Set_ int) [int] (VInt 5) (VInt 5) (VInt 5)).
    + reflexivity.
    + apply skipped_cons with (data' := VInt 5).
      * apply skipped_not_conforming with (value := VInt 5); reflexivity.
      * apply skipped_nil.
    + reflexivity.
    + reflexivity.
    + reflexivity.
Defined.

(** C9.  While the members of a union are probed, the value that the
    transform of one member produced stays in [data]: when that member is
    skipped, the next member is probed, and so transformed, from that
    value and not from the raw one.  With [cast=[list]] the member
    [List[str]] of [Union[List[str], Tuple[int, ...]]] turns the raw tuple
    [(1, 2)] into the list [[1, 2]] and is skipped; [Tuple[int, ...]],
    which matches the raw tuple, is then probed on the list, and the union
    fails with [UnionMatchError] on the list, where the union declared in
    the other order returns the tuple. *)
Theorem union_probing_carries_transformed_value :
  (forall rt config fuel rec inner_type rest data data' union_matches,
      transform rt config fuel inner_type data = Ok data' ->
      member_skipped rt config fuel rec inner_type data data' ->
      scan rt config fuel rec (inner_type :: rest) data union_matches
      = scan rt config fuel rec rest data' union_matches)
  /\ (forall rt config fuel rec inner_type rest data data' value union_matches,
        strict_unions_match config = true ->
        member_matches rt config fuel rec inner_type data data' value ->
        scan rt config fuel rec (inner_type :: rest) data union_matches
        = scan rt config fuel rec rest data'
               (dict_set Ty_eqb inner_type value union_matches))
  /\ (let rt := runtime [] in
      let rec := _build_value rt cast_to_list 2 in
      let raw := VTuple one_two in
      transform rt cast_to_list 3 (List str) raw = Ok (VList one_two)
      /\ member_matches rt cast_to_list 3 rec (Tuple [int; TEllipsis]) raw raw raw
      /\ _build_value rt cast_to_list 3
                      (TUnion [List str; Tuple [int; TEllipsis]]) raw
         = Raise (UnionMatchError None
                    (TUnion [List str; Tuple [int; TEllipsis]]) (VList one_two))
      /\ _build_value rt cast_to_list 3
                      (TUnion [Tuple [int; TEllipsis]; List str]) raw
         = Ok raw).
Proof.
  split; [|split].
  - intros rt config fuel rec inner_type rest data data' union_matches _ H.
    apply scan_skip. assumption.
  - intros rt config fuel rec inner_type rest data data' value union_matches Hs Hm.
    simpl. rewrite (probe_matched _ _ _ _ _ _ _ _ Hm). simpl. rewrite Hs. reflexivity.
  - repeat split; reflexivity.
Qed.

Lemma union_probing_carries_transformed_value_witness :
  let rt := runtime [] in
  (let rec := _build_value rt cast_to_list 2 in
   scan rt cast_to_list 3 rec [List str; Tuple [int; TEllipsis]] (VTuple one_two) []
   = scan rt cast_to_list 3 rec [Tuple [int; TEllipsis]] (VList one_two) []
   /\ scan rt cast_to_list 3 rec [Tuple [int; TEllipsis]] (VList one_two) []
      = Ok (Exhausted (VList one_two) [])
   /\ scan rt cast_to_list 3 rec [Tuple [int; TEllipsis]] (VTuple one_two) []
      = Ok (Found (VTuple one_two)))
  /\ (let rec := _build_value rt strict_unions 1 in
      scan rt strict_unions 2 rec [int; str] (VInt 3) []
      = scan rt strict_unions 2 rec [str] (VInt 3) [(int, VInt 3)]).
Proof.
  intros rt. split; [split; [|split; reflexivity]|].
  - apply (proj1 union_probing_carries_transformed_value).
    + reflexivity.
    + apply skipped_not_conforming with (value := VList one_two); reflexivity.
  - apply (proj1 (proj2 union_probing_carries_transformed_value)
             rt strict_unions 2 (_build_value rt strict_unions 1)
             int [str] (VInt 3) (VInt 3) (VInt 3) []).
    + reflexivity.
    + repeat split; reflexivity.
Defined.

End UnionProperties.

(** ** The transformer *)

Module TransformerProperties.
Import Examples Inputs.

Lemma find_none {A : Type} (p : A -> bool) (xs : list A) :
  (forall x, p x = false) -> find p xs = None.
Proof.
  intros H. induction xs as [|x xs IH]; simpl; [reflexivity|].
  rewrite H. exact IH.
Qed.

(** A union is a subclass of nothing: [issubclass] raises [TypeError] on
    it, so no cast applies to a union. *)
Lemma no_cast_for_union call hooks cast target_type value :
  is_union target_type = true ->
  hook_lookup target_type hooks = None ->
  hook_or_cast call hooks cast target_type value = Ok (Continue value).
Proof.
  intros Hu Hl. unfold hook_or_cast. rewrite Hl.
  destruct target_type; try discriminate Hu.
  rewrite find_none; [reflexivity|]. intros x. reflexivity.
Qed.





End TransformerProperties.

(** ** Null against an Optional type *)

Module OptionalProperties.
Import Examples Inputs TransformerProperties.

(** C3, the claim as stated fails: a raw null against an Optional type
    does not always give [None].  The wildcard hook runs before the test
    for null, so with [type_hooks={Any: lambda v: 0 if v is None else v}]
    [transform_value] gives 0 for [None] against [Optional[int]], and
    [from_dict] binds 0 to the field [n: Optional[int]] of the raw record
    [{"n": None}]. *)
Lemma wildcard_hook_turns_null_into_zero :
  transform_value builtin_call 2 (type_hooks wildcard_hook) (cast wildcard_hook)
                  (Optional int) VNone
  = Ok (VInt 0)
  /\ transform_value builtin_call 2 (type_hooks wildcard_hook) (cast wildcard_hook)
                     (Optional int) VNone
     <> Ok VNone
  /\ from_dict (runtime []) 3 MaybeInt [(VStr "n", VNone)] (Some wildcard_hook)
     = Ok (VInstance "MaybeInt" [("n", VInt 0)] []).
Proof.
  repeat split; try reflexivity; discriminate.
Qed.

(** The builder is called on the non-null member with [None] all the
    same, and the branch that builds a set from another iterable then
    iterates over [None]: a null against [Optional[Set[int]]] raises
    [TypeError]. *)
Lemma optional_set_iterates_over_None :
  forall n : nat,
    _build_value (runtime []) default_config (S (S n)) (Optional (Set_ int)) VNone
    = Raise (Python TypeError "object is not iterable").
Proof. intros n. reflexivity. Qed.

Lemma is_optional_is_union target_type :
  is_optional target_type = true -> is_union target_type = true.
Proof. unfold is_optional. intros H. apply andb_true_iff in H. apply H. Qed.

(** No collection class has [None] among its instances. *)
Lemma None_is_no_collection origin :
  issubclass_Collection origin = true ->
  is_instance VNone (TClass origin) = Ok false.
Proof. destruct origin; intros H; try discriminate H; reflexivity. Qed.

Lemma build_None_against_member rt config n member :
  is_init_var member = false ->
  is_union member = false ->
  is_set_collection member = false ->
  _build_value rt config (S n) member VNone = Ok VNone.
Proof.
  intros Hi Hu Hs. simpl. unfold _build_value_body. rewrite Hi, Hu.
  unfold is_set_collection in Hs.
  destruct (is_generic_collection member) eqn:Hc.
  - simpl in Hs. unfold is_generic_collection in Hc.
    destruct (is_generic member); [|discriminate Hc]. simpl in Hc.
    destruct (extract_origin_collection member) as [[origin| |]|]; try discriminate Hc.
    apply andb_true_iff in Hc. destruct Hc as [Hc _].
    rewrite (None_is_no_collection _ Hc). simpl. rewrite Hs. reflexivity.
  - destruct (dataclass_of rt member); reflexivity.
Qed.

(** The hook stage and the null test of [transform_value] for a null
    against an Optional type. *)
Lemma transform_None_for_optional call fuel hooks cast target_type :
  is_optional target_type = true ->
  apply_hook hooks TAny VNone = Ok VNone ->
  apply_hook hooks target_type VNone = Ok VNone ->
  transform_value call (S fuel) hooks cast target_type VNone = Ok VNone.
Proof.
  intros Ho Hany Hexact.
  pose proof (is_optional_is_union _ Ho) as Hu.
  simpl. unfold transform_value_body. rewrite Hany. simpl.
  replace (is_generic_collection target_type) with false
    by (destruct target_type; try discriminate Hu; reflexivity).
  simpl.
  assert (hook_or_cast call hooks cast target_type VNone = Ok (Continue VNone))
    as Hflow.
  { destruct (hook_lookup target_type hooks) as [hook|] eqn:Hl.
    - unfold hook_or_cast. rewrite Hl.
      unfold apply_hook in Hexact. rewrite Hl in Hexact. rewrite Hexact.
      reflexivity.
    - apply no_cast_for_union; assumption. }
  rewrite Hflow. simpl. unfold peel_and_recurse. rewrite Ho. reflexivity.
Qed.

Lemma build_None_for_optional rt config n member :
  is_init_var member = false ->
  is_union member = false ->
  is_set_collection member = false ->
  _build_value rt config (S (S n)) (TUnion [member; NoneType]) VNone = Ok VNone.
Proof.
  intros Hi Hu Hs.
  change (_build_value rt config (S (S n)) (TUnion [member; NoneType]) VNone)
    with (_build_value_for_union rt config (S (S n)) (_build_value rt config (S n))
            (TUnion [member; NoneType]) VNone).
  unfold _build_value_for_union.
  replace (is_optional (TUnion [member; NoneType])) with true.
  - simpl. apply build_None_against_member; assumption.
  - unfold is_optional. simpl. symmetry.
    destruct member as [ |c| | | | | | | | | ]; try reflexivity.
    destruct c; reflexivity.
Qed.

(** C3, amended.  For a null against an Optional type [transform_value]
    returns [None], without recursing into the non-null member, whenever
    the hook stage leaves the null as it is, which is always so when no
    wildcard hook and no hook for the Optional type is registered; the
    cast list is not consulted for a union.  The builder is then called
    with [None] on the first member of a two-member Optional and hands
    [None] back when that member is not an [InitVar], a union or a
    set-like collection.  So a field declared [Optional[C]] for a class
    [C] is bound to [None] on a raw null, with or without type checking. *)
Theorem null_against_optional :
  (forall call fuel hooks cast target_type,
      is_optional target_type = true ->
      apply_hook hooks TAny VNone = Ok VNone ->
      apply_hook hooks target_type VNone = Ok VNone ->
      transform_value call (S fuel) hooks cast target_type VNone = Ok VNone)
  /\ (forall rt config n member,
        is_init_var member = false ->
        is_union member = false ->
        is_set_collection member = false ->
        _build_value rt config (S (S n)) (TUnion [member; NoneType]) VNone
        = Ok VNone)
  /\ (forall rt config fuel n data_class_hints data init_values post_init_values
             field c,
        dict_get String.eqb (name field) data_class_hints
        = Some (TUnion [TClass c; NoneType]) ->
        dict_get Value_eqb (VStr (name field)) data = Some VNone ->
        apply_hook (type_hooks config) TAny VNone = Ok VNone ->
        apply_hook (type_hooks config) (TUnion [TClass c; NoneType]) VNone = Ok VNone ->
        from_dict_field rt config (S fuel) (_build_value rt config (S (S n)))
                        data_class_hints data (init_values, post_init_values) field
        = Ok (if init field
              then (dict_set String.eqb (name field) VNone init_values,
                    post_init_values)
              else (init_values,
                    dict_set String.eqb (name field) VNone post_init_values))).
Proof.
  split; [|split].
  - exact transform_None_for_optional.
  - exact build_None_for_optional.
  - intros rt config fuel n hints data init_values post_init_values field c
           Hhint Hdata Hany Hexact.
    unfold from_dict_field. rewrite Hhint. cbn [bind].
    cbn [name type init set_type]. rewrite Hdata.
    unfold transform.
    rewrite (transform_None_for_optional (call rt) fuel (type_hooks config)
               (cast config) (TUnion [TClass c; NoneType]));
      [|destruct c; reflexivity|exact Hany|exact Hexact].
    cbn [bind].
    rewrite (build_None_for_optional rt config n (TClass c));
      [|reflexivity|reflexivity|reflexivity].
    cbn [with_field_path bind].
    replace (is_instance VNone (TUnion [TClass c; NoneType])) with (Ok true)
      by (destruct c; reflexivity).
    destruct (check_types config); cbn [bind negb];
      destruct (init field); reflexivity.
Qed.

Lemma null_against_optional_witness :
  transform_value builtin_call 1 [] [TClass c_int] (Optional int) VNone = Ok VNone
  /\ _build_value (runtime []) default_config 2 (Optional int) VNone = Ok VNone
  /\ from_dict_field (runtime []) default_config 1
                     (_build_value (runtime []) default_config 2)
                     [("n", Optional int)] [(VStr "n", VNone)] ([], [])
                     (field "n" (Optional int))
     = Ok ([("n", VNone)], []).
Proof.
  split; [|split].
  - apply (proj1 null_against_optional builtin_call 0 [] [TClass c_int] (Optional int));
      reflexivity.
  - apply (proj1 (proj2 null_against_optional) (runtime []) default_config 0 int);
      reflexivity.
  - apply (proj2 (proj2 null_against_optional) (runtime []) default_config 0 0
             [("n", Optional int)] [(VStr "n", VNone)] [] []
             (field "n" (Optional int)) c_int); reflexivity.
Defined.

End OptionalProperties.

(** ** Collection and tuple reconstruction *)

Module CollectionProperties.
Import Examples Inputs.

Lemma zip_longest_length {A B : Type} (a : A) (b : B) (xs : list A) :
  forall ys : list B,
    List.length (zip_longest a b xs ys) = Nat.max (List.length xs) (List.length ys).
Proof.
  induction xs as [|x xs IH]; intros [|y ys]; simpl; try reflexivity.
  - rewrite length_map. reflexivity.
  - rewrite IH. simpl. rewrite Nat.max_0_r. reflexivity.
  - rewrite IH. reflexivity.
Qed.

Lemma map_r_length {A B : Type} (f : A -> result B) (xs : list A) :
  forall ys, map_r f xs = Ok ys -> List.length ys = List.length xs.
Proof.
  induction xs as [|x xs IH]; simpl; intros ys H.
  - injection H as <-. reflexivity.
  - destruct (f x) as [y| |]; try discriminate H. simpl in H.
    destruct (map_r f xs) as [ys'| |]; try discriminate H. simpl in H.
    injection H as <-. simpl. rewrite (IH ys' eq_refl). reflexivity.
Qed.

(** Over an input at least as long as the list of types, [zip_longest]
    is [zip] followed by the surplus elements, each paired with the fill
    value. *)
Lemma zip_longest_surplus_items {A B : Type} (a : A) (b : B) (xs : list A) :
  forall ys : list B,
    List.length ys <= List.length xs ->
    zip_longest a b xs ys
    = combine xs ys ++ map (fun x => (x, b)) (skipn (List.length ys) xs).
Proof.
  induction xs as [|x xs IH]; intros [|y ys] Hlen; simpl in *;
    try reflexivity; try lia.
  - f_equal. rewrite (IH [] (Nat.le_0_l _)). rewrite combine_nil. reflexivity.
  - f_equal. apply IH. lia.
Qed.

Lemma map_r_app {A B : Type} (f : A -> result B) (xs : list A) :
  forall ys,
    map_r f (xs ++ ys)
    = (a <- map_r f xs ;; b <- map_r f ys ;; Ok (a ++ b))%result.
Proof.
  induction xs as [|x xs IH]; intros ys; simpl.
  - destruct (map_r f ys); reflexivity.
  - destruct (f x) as [y| |]; try reflexivity. simpl. rewrite IH.
    destruct (map_r f xs) as [a| |]; try reflexivity. simpl.
    destruct (map_r f ys); reflexivity.
Qed.

(** The elements paired with the fill value [None] in type position come
    back as they are when the builder returns its data for that type. *)
Lemma map_r_surplus (rec : Ty -> Value -> result Value) (xs : list Value) :
  (forall surplus, rec TNoneObject surplus = Ok surplus) ->
  map_r (fun '(item, type_) => rec type_ item)
        (map (fun x => (x, TNoneObject)) xs) = Ok xs.
Proof.
  intros Hsurplus. induction xs as [|x xs IH]; [reflexivity|].
  cbn [map map_r]. rewrite Hsurplus. cbn [bind].
  change (bind (map_r (fun '(item, type_) => rec type_ item)
                      (map (fun x => (x, TNoneObject)) xs))
               (fun ys => Ok (x :: ys)) = Ok (x :: xs)).
  rewrite IH. reflexivity.
Qed.

(** The fixed-arity branch of [_build_value_for_collection]. *)
Lemma fixed_tuple_reconstruction rec tuple_types item items :
  fixed_form tuple_types = true ->
  _build_value_for_collection rec
                              (Tuple tuple_types) (VTuple (item :: items))
  = (built <- map_r (fun '(item, type_) => rec type_ item)
                    (zip_longest VNone TNoneObject (item :: items) tuple_types) ;;
     Ok (VTuple built)).
Proof.
  intros Hfixed. unfold fixed_form in Hfixed.
  apply andb_true_iff in Hfixed. destruct Hfixed as [_ Hell].
  apply negb_true_iff in Hell.
  unfold _build_value_for_collection.
  replace (extract_generic (Tuple tuple_types) []) with tuple_types
    by (destruct tuple_types; reflexivity).
  cbn -[zip_longest map_r Nat.eqb nth_is]. rewrite Hell. reflexivity.
Qed.

(** C4, the claim as stated fails: the pairing does not stop at the
    shorter length.  [(1, 2, 3)] against [Tuple[int, int]] is rebuilt with
    its three elements, not cut to two, and [(1,)] against
    [Tuple[int, int, int]] is rebuilt with three elements, the missing ones
    being [None]. *)
Lemma fixed_tuple_reconstruction_keeps_surplus :
  _build_value (runtime []) default_config 2 (Tuple [int; int]) (VTuple one_two_three)
  = Ok (VTuple one_two_three)
  /\ _build_value (runtime []) default_config 2 (Tuple [int; int]) (VTuple one_two_three)
     <> Ok (VTuple one_two)
  /\ _build_value (runtime []) default_config 2 (Tuple [int; int; int]) (VTuple [VInt 1])
     = Ok (VTuple [VInt 1; VNone; VNone]).
Proof.
  repeat split; try reflexivity; discriminate.
Qed.

(** C4, amended.  For a fixed-arity tuple type and a non-empty input
    tuple, collection reconstruction pairs the input elements with the
    declared types position by position over the longer of the two
    lengths, as [zip_longest] does, and makes no test of the arity.  An
    input element beyond the declared arity is paired with no type and the
    builder hands it back unchanged: an input at least as long as the
    arity is rebuilt with all its elements as soon as the elements at the
    declared positions build, and a tuple rebuilt from a longer input is
    afterwards refused by the length test of the matcher.  A declared type
    beyond the input is built against [None], and that build decides:
    [(1,)] against [Tuple[int, Optional[int]]] becomes [(1, None)], which
    conforms, while against [Tuple[int, Set[int]]] the build of the second
    position raises [TypeError] and against [Tuple[int, Union[int, str]]]
    it raises [UnionMatchError].  A tuple that is rebuilt has as many
    elements as the longer of the two lengths.  An empty input tuple is
    returned empty whatever the declared arity. *)
Theorem fixed_tuple_reconstruction_pairs_over_longer_length :
  (forall rec tuple_types,
      fixed_form tuple_types = true ->
      (forall item items,
          _build_value_for_collection rec
                                      (Tuple tuple_types) (VTuple (item :: items))
          = (built <- map_r (fun '(item, type_) => rec type_ item)
                            (zip_longest VNone TNoneObject (item :: items) tuple_types) ;;
             Ok (VTuple built)))
      /\ (forall item items out,
            _build_value_for_collection rec
                                        (Tuple tuple_types) (VTuple (item :: items))
            = Ok out ->
            exists built,
              out = VTuple built
              /\ List.length built
                 = Nat.max (List.length (item :: items)) (List.length tuple_types))
      /\ (forall item items built,
            List.length tuple_types <= List.length (item :: items) ->
            (forall surplus, rec TNoneObject surplus = Ok surplus) ->
            map_r (fun '(item, type_) => rec type_ item)
                  (combine (item :: items) tuple_types) = Ok built ->
            _build_value_for_collection rec
                                        (Tuple tuple_types) (VTuple (item :: items))
            = Ok (VTuple (built ++ skipn (List.length tuple_types) (item :: items))))
      /\ (forall item items out,
            List.length tuple_types < List.length (item :: items) ->
            _build_value_for_collection rec
                                        (Tuple tuple_types) (VTuple (item :: items))
            = Ok out ->
            is_instance out (Tuple tuple_types) = Ok false)
      /\ _build_value_for_collection rec (Tuple tuple_types) (VTuple [])
         = Ok (VTuple []))
  /\ (forall rt config n item,
        _build_value rt config (S n) TNoneObject item = Ok item)
  /\ (let rt := runtime [] in
      _build_value rt default_config 3 (Tuple [int; Optional int]) (VTuple [VInt 1])
      = Ok (VTuple [VInt 1; VNone])
      /\ is_instance (VTuple [VInt 1; VNone]) (Tuple [int; Optional int]) = Ok true
      /\ _build_value rt default_config 3 (Tuple [int; Set_ int]) (VTuple [VInt 1])
         = Raise (Python TypeError "object is not iterable")
      /\ _build_value rt default_config 3
                      (Tuple [int; TUnion [int; str]]) (VTuple [VInt 1])
         = Raise (UnionMatchError None (TUnion [int; str]) VNone)).
Proof.
  split; [|split].
  - intros rec tuple_types Hfixed.
    assert (Hlength : forall item items out,
               _build_value_for_collection rec
                 (Tuple tuple_types) (VTuple (item :: items)) = Ok out ->
               exists built,
                 out = VTuple built
                 /\ List.length built
                    = Nat.max (List.length (item :: items)) (List.length tuple_types)).
    { intros item items out.
      rewrite (fixed_tuple_reconstruction rec tuple_types item items Hfixed).
      destruct (map_r _ _) as [built| |] eqn:Hbuilt; try discriminate.
      cbn [bind]. intros H. injection H as <-. exists built. split; [reflexivity|].
      rewrite (map_r_length _ _ _ Hbuilt). apply zip_longest_length. }
    split; [|split; [exact Hlength|split; [|split]]].
    + intros item items. apply fixed_tuple_reconstruction. assumption.
    + intros item items built Hlen Hsurplus Hbuilt.
      rewrite (fixed_tuple_reconstruction rec tuple_types item items Hfixed).
      rewrite (zip_longest_surplus_items VNone TNoneObject (item :: items)
                 tuple_types Hlen).
      rewrite map_r_app, Hbuilt. cbn [bind].
      rewrite (map_r_surplus rec _ Hsurplus). reflexivity.
    + intros item items out Hlen Hout.
      destruct (Hlength item items out Hout) as (built & -> & Hbuilt).
      unfold fixed_form in Hfixed. apply andb_true_iff in Hfixed.
      destruct Hfixed as [Hempty Hell].
      apply negb_true_iff in Hempty. apply negb_true_iff in Hell.
      rewrite MatcherProperties.is_instance_tuple, Hempty, Hell.
      replace (Nat.eqb (List.length tuple_types) (List.length built)) with false
        by (symmetry; apply Nat.eqb_neq; lia).
      reflexivity.
    + reflexivity.
  - intros rt config n item. reflexivity.
  - repeat split; reflexivity.
Qed.

Lemma fixed_tuple_reconstruction_pairs_over_longer_length_witness :
  let rec := _build_value (runtime []) default_config 1 in
  fixed_form [int; int] = true
  /\ _build_value_for_collection rec (Tuple [int; int]) (VTuple one_two_three)
     = Ok (VTuple one_two_three)
  /\ (exists built,
         VTuple one_two_three = VTuple built
         /\ List.length built = Nat.max 3 2)
  /\ _build_value_for_collection rec (Tuple [int; int]) (VTuple one_two_three)
     = Ok (VTuple (one_two ++ [VInt 3]))
  /\ is_instance (VTuple one_two_three) (Tuple [int; int]) = Ok false.
Proof.
  intros rec.
  pose proof (proj1 fixed_tuple_reconstruction_pairs_over_longer_length
                rec [int; int] eq_refl)
    as (Hpairs & Hlength & Hsurplus & Hrefused & _).
  split; [reflexivity|]. split; [|split; [|split]].
  - unfold one_two_three. rewrite Hpairs. reflexivity.
  - apply (Hlength (VInt 1) [VInt 2; VInt 3] (VTuple one_two_three)).
    reflexivity.
  - apply (Hsurplus (VInt 1) [VInt 2; VInt 3] one_two).
    + simpl. lia.
    + intros surplus. reflexivity.
    + reflexivity.
  - apply (Hrefused (VInt 1) [VInt 2; VInt 3] (VTuple one_two_three)).
    + simpl. lia.
    + reflexivity.
Defined.

End CollectionProperties.

(** ** Equality of values *)

Module EqualityProperties.

Lemma PyClass_eqb_eq a b : PyClass_eqb a b = true -> a = b.
Proof.
  destruct a, b; simpl; intros H; try discriminate H; try reflexivity.
  apply String.eqb_eq in H. subst. reflexivity.
Qed.

(** [Value_eqb] holds of identical values only. *)
Lemma Value_eqb_eq : forall a b, Value_eqb a b = true -> a = b.
Proof.
  assert (Hlist : forall xs,
             Forall (fun x => forall y, Value_eqb x y = true -> x = y) xs ->
             forall ys,
               (fix list_eqb (xs ys : list Value) {struct xs} : bool :=
                  match xs, ys with
                  | [], [] => true
                  | x :: xs', y :: ys' => Value_eqb x y && list_eqb xs' ys'
                  | _, _ => false
                  end) xs ys = true -> xs = ys).
  { induction 1 as [|x xs Hx _ IH]; intros [|y ys] H; try discriminate H.
    - reflexivity.
    - apply andb_true_iff in H. destruct H as [H1 H2].
      rewrite (Hx y H1), (IH ys H2). reflexivity. }
  assert (Hitems : forall xs,
             Forall (fun kv => (forall y, Value_eqb (fst kv) y = true -> fst kv = y)
                               /\ (forall y, Value_eqb (snd kv) y = true -> snd kv = y)) xs ->
             forall ys,
               (fix items_eqb (xs ys : list (Value * Value)) {struct xs} : bool :=
                  match xs, ys with
                  | [], [] => true
                  | (k, x) :: xs', (l, y) :: ys' =>
                      Value_eqb k l && Value_eqb x y && items_eqb xs' ys'
                  | _, _ => false
                  end) xs ys = true -> xs = ys).
  { induction 1 as [|[k x] xs [Hk Hx] _ IH]; intros [|[l y] ys] H;
      try discriminate H.
    - reflexivity.
    - apply andb_true_iff in H. destruct H as [H H3].
      apply andb_true_iff in H. destruct H as [H1 H2]. simpl in Hk, Hx.
      rewrite (Hk l H1), (Hx y H2), (IH ys H3). reflexivity. }
  assert (Hfields : forall xs,
             Forall (fun kv : string * Value =>
                       forall y, Value_eqb (snd kv) y = true -> snd kv = y) xs ->
             forall ys,
               (fix fields_eqb (xs ys : list (string * Value)) {struct xs} : bool :=
                  match xs, ys with
                  | [], [] => true
                  | (k, x) :: xs', (l, y) :: ys' =>
                      String.eqb k l && Value_eqb x y && fields_eqb xs' ys'
                  | _, _ => false
                  end) xs ys = true -> xs = ys).
  { induction 1 as [|[k x] xs Hx _ IH]; intros [|[l y] ys] H;
      try discriminate H.
    - reflexivity.
    - apply andb_true_iff in H. destruct H as [H H3].
      apply andb_true_iff in H. destruct H as [H1 H2]. simpl in Hx.
      apply String.eqb_eq in H1.
      rewrite H1, (Hx y H2), (IH ys H3). reflexivity. }
  intros a. induction a using Value_nested_ind; intros other Hab;
    destruct other; simpl in Hab; try discriminate Hab.
  - reflexivity.
  - apply Bool.eqb_prop in Hab. subst. reflexivity.
  - apply Z.eqb_eq in Hab. subst. reflexivity.
  - apply andb_true_iff in Hab. destruct Hab as [H1 H2].
    apply Z.eqb_eq in H1, H2. subst. reflexivity.
  - apply String.eqb_eq in Hab. subst. reflexivity.
  - f_equal. apply Hlist; assumption.
  - f_equal. apply Hlist; assumption.
  - f_equal. apply Hitems; assumption.
  - f_equal. apply Hlist; assumption.
  - f_equal. apply Hlist; assumption.
  - apply andb_true_iff in Hab. destruct Hab as [Hab H3].
    apply andb_true_iff in Hab. destruct Hab as [H1 H2].
    apply String.eqb_eq in H1. subst.
    rewrite (Hfields _ H _ H2), (Hfields _ H0 _ H3). reflexivity.
  - apply PyClass_eqb_eq in Hab. subst. reflexivity.
Qed.

Lemma Value_eqb_str key s : Value_eqb key (VStr s) = true <-> key = VStr s.
Proof.
  split.
  - apply Value_eqb_eq.
  - intros ->. simpl. apply String.eqb_refl.
Qed.

(** [set(items)] has the elements of [items]. *)
Lemma set_of_items_In items : forall x, In x (set_of_items items) <-> In x items.
Proof.
  unfold set_of_items.
  assert (H : forall items acc x,
             In x (fold_left (fun acc x => if existsb (Value_eqb x) acc
                                           then acc else acc ++ [x]) items acc)
             <-> In x acc \/ In x items).
  { clear items. induction items as [|y items IH]; intros acc x; simpl.
    - tauto.
    - rewrite IH. destruct (existsb (Value_eqb y) acc) eqn:E.
      + split; [tauto|]. intros [H|[H|H]]; try tauto. subst y.
        apply existsb_exists in E. destruct E as (z & Hz & Hxz).
        apply Value_eqb_eq in Hxz. subst. tauto.
      + rewrite in_app_iff. simpl. tauto. }
  intros x. rewrite H. simpl. tauto.
Qed.

End EqualityProperties.

(** ** The record assembler *)

Module AssemblerProperties.
Import Examples Inputs EqualityProperties.

(** The keys [from_dict] reports in strict mode are the keys of the raw
    data that name no declared field. *)
Lemma extra_keys_In data data_class_fields key :
  In key (extra_keys data data_class_fields)
  <-> In key (map fst data)
      /\ forall f, In f data_class_fields -> key <> VStr (name f).
Proof.
  unfold extra_keys. rewrite filter_In, set_of_items_In, negb_true_iff.
  split; intros [Hin Hno]; (split; [exact Hin|]).
  - intros f Hf Heq.
    assert (existsb (fun f => Value_eqb key (VStr (name f))) data_class_fields = true)
      as Hex.
    { apply existsb_exists. exists f. split; [exact Hf|].
      apply Value_eqb_str. exact Heq. }
    rewrite Hex in Hno. discriminate Hno.
  - destruct (existsb _ data_class_fields) eqn:Hex; [|reflexivity].
    apply existsb_exists in Hex. destruct Hex as (f & Hf & Heq).
    apply Value_eqb_str in Heq. destruct (Hno f Hf Heq).
Qed.

(** C7.  In strict mode, once the type hints of the record are resolved, a
    raw record with a key that names no declared field makes [from_dict]
    raise [UnexpectedDataError] with exactly the keys of the raw data that
    name no declared field.  This holds whatever the runtime, the hooks,
    the casts and the fuel are, also with no fuel at all: no field is
    transformed, built or given a default before. *)
Theorem strict_mode_rejects_unexpected_keys_first :
  forall rt fuel data_class data config type_hints,
    strict config = true ->
    get_type_hints data_class (forward_references config) = Ok type_hints ->
    (exists key,
        In key (map fst data)
        /\ forall f, In f (fields data_class) -> key <> VStr (name f)) ->
    from_dict rt fuel data_class data (Some config)
    = Raise (UnexpectedDataError (extra_keys data (fields data_class)))
    /\ forall key,
        In key (extra_keys data (fields data_class))
        <-> In key (map fst data)
            /\ forall f, In f (fields data_class) -> key <> VStr (name f).
Proof.
  intros rt fuel data_class data config type_hints Hstrict Hhints (key & Hkey).
  split; [|intros k; apply extra_keys_In].
  unfold from_dict, from_dict_body, get_data_class_hints.
  rewrite Hhints. cbn [bind]. rewrite Hstrict.
  destruct (extra_keys data (fields data_class)) as [|k extras] eqn:Hextra.
  - apply extra_keys_In in Hkey. rewrite Hextra in Hkey. destruct Hkey.
  - reflexivity.
Qed.

Lemma strict_mode_rejects_unexpected_keys_first_witness :
  from_dict (runtime []) 0 OnlyA
            [(VStr "a", VStr "not an int"); (VStr "b", VInt 2)] (Some strict_keys)
  = Raise (UnexpectedDataError [VStr "b"]).
Proof.
  apply (strict_mode_rejects_unexpected_keys_first (runtime []) 0 OnlyA
           [(VStr "a", VStr "not an int"); (VStr "b", VInt 2)] strict_keys
           [("a", int)] eq_refl eq_refl).
  exists (VStr "b"). split.
  - simpl. right. left. reflexivity.
  - intros f [<-|[]]. simpl. discriminate.
Defined.

(** C10.  A field that is absent from the raw data and takes part in the
    constructor is bound to the value [get_default_value_for_field]
    supplies (a declared default, or a null under
    [allow_missing_fields_as_none]) with no conformance test, whatever
    [check_types] is: the test, and [WrongTypeError], are reserved to the
    fields present in the raw data.  So the record with the field
    [x: int = "oops"] is built from the empty raw record although ["oops"]
    does not conform to [int], and rejected when the raw record gives
    ["oops"] for [x]. *)
Theorem absent_fields_are_bound_without_type_check :
  (forall rt config fuel rec data_class_hints data init_values post_init_values
          field hint value,
      dict_get String.eqb (name field) data_class_hints = Some hint ->
      dict_get Value_eqb (VStr (name field)) data = None ->
      init field = true ->
      get_default_value_for_field rt (set_type field hint)
                                  (allow_missing_fields_as_none config)
      = Some value ->
      from_dict_field rt config fuel rec data_class_hints data
                      (init_values, post_init_values) field
      = Ok (dict_set String.eqb (name field) value init_values, post_init_values))
  /\ (forall rt config fuel rec data_class_hints data values
             field hint field_data transformed_value value,
        dict_get String.eqb (name field) data_class_hints = Some hint ->
        dict_get Value_eqb (VStr (name field)) data = Some field_data ->
        transform rt config fuel hint field_data = Ok transformed_value ->
        rec hint transformed_value = Ok value ->
        is_instance value hint = Ok false ->
        check_types config = true ->
        from_dict_field rt config fuel rec data_class_hints data values field
        = Raise (WrongTypeError (Some (name field)) hint value))
  /\ (forall n : nat,
        from_dict (runtime []) n BadDefault [] None
        = Ok (VInstance "BadDefault" [("x", VStr "oops")] []))
  /\ is_instance (VStr "oops") int = Ok false
  /\ (forall n : nat,
        from_dict (runtime []) (S n) BadDefault [(VStr "x", VStr "oops")] None
        = Raise (WrongTypeError (Some "x") int (VStr "oops"))).
Proof.
  split; [|split; [|split; [|split]]].
  - intros rt config fuel rec hints data init_values post_init_values
           field hint value Hhint Habsent Hinit Hdefault.
    unfold from_dict_field. rewrite Hhint. cbn [bind].
    cbn [name type init set_type]. rewrite Habsent, Hinit. cbn [negb].
    rewrite Hdefault. reflexivity.
  - intros rt config fuel rec hints data [init_values post_init_values]
           field hint field_data transformed_value value
           Hhint Hpresent Htransform Hbuild Hconf Hcheck.
    unfold from_dict_field. rewrite Hhint. cbn [bind].
    cbn [name type init set_type]. rewrite Hpresent, Htransform. cbn [bind].
    rewrite Hbuild. cbn [with_field_path bind]. rewrite Hcheck, Hconf.
    reflexivity.
  - intros n. reflexivity.
  - reflexivity.
  - intros n. reflexivity.
Qed.

Lemma absent_fields_are_bound_without_type_check_witness :
  from_dict_field (runtime []) default_config 0 (fun _ _ => Timeout)
                  [("x", int)] [] ([], [])
                  {| name := "x"; type := int; init := true;
                     default := Some (VStr "oops") |}
  = Ok ([("x", VStr "oops")], [])
  /\ from_dict_field (runtime []) default_config 1
                     (_build_value (runtime []) default_config 1)
                     [("x", int)] [(VStr "x", VStr "oops")] ([], [])
                     {| name := "x"; type := int; init := true;
                        default := Some (VStr "oops") |}
     = Raise (WrongTypeError (Some "x") int (VStr "oops")).
Proof.
  split.
  - apply (proj1 absent_fields_are_bound_without_type_check
             (runtime []) default_config 0 (fun _ _ => Timeout)
             [("x", int)] [] [] []
             {| name := "x"; type := int; init := true;
                default := Some (VStr "oops") |}
             int (VStr "oops")); reflexivity.
  - apply (proj1 (proj2 absent_fields_are_bound_without_type_check)
             (runtime []) default_config 1
             (_build_value (runtime []) default_config 1)
             [("x", int)] [(VStr "x", VStr "oops")] ([], [])
             {| name := "x"; type := int; init := true;
                default := Some (VStr "oops") |}
             int (VStr "oops") (VStr "oops") (VStr "oops")); reflexivity.
Defined.

End AssemblerProperties.

(** ** More on the matcher *)

Module ConformanceProperties.
Import Examples Inputs MatcherProperties.

Lemma all_r_true {A : Type} (f : A -> result bool) (xs : list A) :
  all_r f xs = Ok true <-> Forall (fun x => f x = Ok true) xs.
Proof.
  induction xs as [|x xs IH]; simpl.
  - split; [constructor|reflexivity].
  - split.
    + intros H. destruct (f x) as [[|]| |] eqn:Hf; try discriminate H.
      constructor; [exact Hf|]. apply IH. exact H.
    + intros H. inversion H as [|? ? Hf Hrest]; subst.
      rewrite Hf. simpl. apply IH. exact Hrest.
Qed.

Lemma any_r_true {A : Type} (f : A -> result bool) (xs : list A) :
  any_r f xs = Ok true
  <-> exists pre x post,
        xs = pre ++ x :: post
        /\ Forall (fun y => f y = Ok false) pre
        /\ f x = Ok true.
Proof.
  induction xs as [|x xs IH]; simpl.
  - split; [discriminate|]. intros (pre & y & post & H & _).
    destruct pre; discriminate H.
  - split.
    + intros H. destruct (f x) as [[|]| |] eqn:Hf; try discriminate H.
      * exists [], x, xs. repeat split; [constructor|exact Hf].
      * simpl in H. apply IH in H. destruct H as (pre & y & post & -> & Hpre & Hy).
        exists (x :: pre), y, post. repeat split; [constructor; assumption|exact Hy].
    + intros (pre & y & post & Hxs & Hpre & Hy).
      destruct pre as [|p pre]; simpl in Hxs; injection Hxs as -> ->.
      * rewrite Hy. reflexivity.
      * inversion Hpre as [|? ? Hp Hrest]; subst. rewrite Hp. simpl.
        apply IH. exists pre, y, post. repeat split; assumption.
Qed.

Lemma any_r_false {A : Type} (f : A -> result bool) (xs : list A) :
  any_r f xs = Ok false <-> Forall (fun x => f x = Ok false) xs.
Proof.
  induction xs as [|x xs IH]; simpl.
  - split; [constructor|reflexivity].
  - split.
    + intros H. destruct (f x) as [[|]| |] eqn:Hf; try discriminate H.
      constructor; [exact Hf|]. apply IH. exact H.
    + intros H. inversion H as [|? ? Hf Hrest]; subst.
      rewrite Hf. simpl. apply IH. exact Hrest.
Qed.

(** A value conforms to a union exactly when it conforms to one of the
    members and the test answered [False], without raising, for every
    member declared before that one; it is rejected exactly when every
    member rejects it. *)
Theorem union_conformance :
  forall (value : Value) (args : list Ty),
    (is_instance value (TUnion args) = Ok true
     <-> exists pre member post,
           args = pre ++ member :: post
           /\ Forall (fun t => is_instance value t = Ok false) pre
           /\ is_instance value member = Ok true)
    /\ (is_instance value (TUnion args) = Ok false
        <-> Forall (fun t => is_instance value t = Ok false) args).
Proof.
  intros value args. split.
  - apply (any_r_true (fun t => is_instance value t) args).
  - apply (any_r_false (fun t => is_instance value t) args).
Qed.

(** [Tuple[T, ...]] accepts the tuples of any length, the empty one
    included, all of whose elements conform to [T], and nothing else;
    [Tuple[()]] accepts the empty tuple and nothing else. *)
Theorem homogeneous_and_empty_tuple_conformance :
  forall (value : Value) (item_type : Ty),
    (is_instance value (Tuple [item_type; TEllipsis]) = Ok true
     <-> exists items,
           value = VTuple items
           /\ Forall (fun item => is_instance item item_type = Ok true) items)
    /\ (is_instance value (Tuple [TEmptyTuple]) = Ok true <-> value = VTuple []).
Proof.
  intros value item_type. split; split.
  - intros H. destruct (tuple_alias_wants_tuple _ _ H) as [items ->].
    exists items. split; [reflexivity|].
    rewrite is_instance_tuple in H.
    apply (all_r_true (fun item => is_instance item item_type) items). exact H.
  - intros (items & -> & H). rewrite is_instance_tuple.
    apply (all_r_true (fun item => is_instance item item_type) items). exact H.
  - intros H. destruct (tuple_alias_wants_tuple _ _ H) as [items ->].
    rewrite is_instance_tuple in H. destruct items; [reflexivity|discriminate H].
  - intros ->. reflexivity.
Qed.

(** A value conforms to [Dict[K, V]] exactly when it is a dictionary every
    key of which conforms to [K] and every value to [V]. *)
Theorem dict_conformance :
  forall (value : Value) (key_type val_type : Ty),
    is_instance value (TGeneric c_dict (Some [key_type; val_type])) = Ok true
    <-> exists pairs,
          value = VDict pairs
          /\ Forall (fun kv => is_instance (fst kv) key_type = Ok true
                               /\ is_instance (snd kv) val_type = Ok true) pairs.
Proof.
  intros value key_type val_type.
  assert (Hpair : forall kv : Value * Value,
             (k <- is_instance (fst kv) key_type ;;
              if negb k then Ok false
              else v <- is_instance (snd kv) val_type ;; Ok v) = Ok true
             <-> is_instance (fst kv) key_type = Ok true
                 /\ is_instance (snd kv) val_type = Ok true).
  { intros kv. destruct (is_instance (fst kv) key_type) as [[|]| |]; simpl;
      try (split; [discriminate|intros [H _]; discriminate H]).
    destruct (is_instance (snd kv) val_type) as [[|]| |]; simpl;
      try (split; [discriminate|intros [_ H]; discriminate H]).
    split; [intros _; split; reflexivity|reflexivity]. }
  split.
  - intros H. destruct value; try discriminate H.
    exists items. split; [reflexivity|].
    cbn in H. apply all_r_true in H.
    eapply Forall_impl; [|exact H]. intros kv Hkv. apply Hpair. exact Hkv.
  - intros (pairs & -> & H). cbn. apply all_r_true.
    eapply Forall_impl; [|exact H]. intros kv Hkv. apply Hpair. exact Hkv.
Qed.

(** A value conforms to [List[T]] exactly when it is a list all of whose
    elements conform to [T], and to [Set[T]] exactly when it is a set all
    of whose elements conform to [T]: a tuple or a set is no [List[T]], a
    list or a frozenset no [Set[T]]. *)
Theorem list_and_set_conformance :
  forall (value : Value) (item_type : Ty),
    (is_instance value (List item_type) = Ok true
     <-> exists items,
           value = VList items
           /\ Forall (fun item => is_instance item item_type = Ok true) items)
    /\ (is_instance value (Set_ item_type) = Ok true
        <-> exists items,
              value = VSet items
              /\ Forall (fun item => is_instance item item_type = Ok true) items).
Proof.
  intros value item_type. split; split.
  - intros H. destruct value; try discriminate H.
    exists items. split; [reflexivity|].
    apply (all_r_true (fun item => is_instance item item_type) items). exact H.
  - intros (items & -> & H).
    apply (all_r_true (fun item => is_instance item item_type) items). exact H.
  - intros H. destruct value; try discriminate H.
    exists items. split; [reflexivity|].
    apply (all_r_true (fun item => is_instance item item_type) items). exact H.
  - intros (items & -> & H).
    apply (all_r_true (fun item => is_instance item item_type) items). exact H.
Qed.

End ConformanceProperties.

(** ** The matcher does not raise on well-formed aliases *)

Module TotalityProperties.
Import Examples Inputs.

Lemma any_r_total {A : Type} (f : A -> result bool) (xs : list A) :
  Forall (fun x => exists b, f x = Ok b) xs -> exists b, any_r f xs = Ok b.
Proof.
  induction 1 as [|x xs [b Hx] _ [c IH]]; simpl.
  - exists false. reflexivity.
  - rewrite Hx. simpl. destruct b; [exists true; reflexivity|].
    exists c. exact IH.
Qed.

Lemma all_r_total {A : Type} (f : A -> result bool) (xs : list A) :
  (forall x, exists b, f x = Ok b) -> exists b, all_r f xs = Ok b.
Proof.
  intros Hf. induction xs as [|x xs [c IH]]; simpl.
  - exists true. reflexivity.
  - destruct (Hf x) as [b Hx]. rewrite Hx. simpl.
    destruct b; [exists c; exact IH|exists false; reflexivity].
Qed.

Lemma all_zip_r_total {A B : Type} (f : A -> B -> result bool) (ys : list B) :
  Forall (fun y => forall x, exists b, f x y = Ok b) ys ->
  forall xs, exists b, all_zip_r f xs ys = Ok b.
Proof.
  induction 1 as [|y ys Hy _ IH]; intros xs; simpl.
  - exists true. destruct xs; reflexivity.
  - destruct xs as [|x xs]; [exists true; reflexivity|].
    destruct (Hy x) as [b Hx]. rewrite Hx. simpl.
    destruct b; [apply IH|exists false; reflexivity].
Qed.

(** An instance of a collection class can be iterated. *)
Lemma collection_instance_iterates value origin :
  issubclass_Collection origin = true ->
  isinstance value origin = true ->
  exists items, iterate value = Ok items.
Proof.
  intros Hc Hi.
  destruct value; try (eexists; reflexivity);
    destruct origin; try discriminate Hc; discriminate Hi.
Qed.

Lemma mapping_instance_is_dict value :
  isinstance value c_Mapping = true -> exists pairs, value = VDict pairs.
Proof.
  destruct value; intros H; try discriminate H. eexists. reflexivity.
Qed.

Lemma mapping_origin value origin :
  isinstance value c_Mapping = true ->
  isinstance value origin = true ->
  issubclass c_dict origin = true.
Proof.
  intros Hm Ho. destruct (mapping_instance_is_dict _ Hm) as [pairs ->].
  exact Ho.
Qed.

(** [is_instance] answers [True] or [False], and raises nothing, for
    every declared type built from [Any], classes, [Literal], [NewType],
    [InitVar[T]], [Type[X]], unions and the aliases whose origin is
    [list], [tuple], [dict], [set], [frozenset] or [Mapping], a mapping
    alias having no argument or two, and for every value that is [None],
    a number, a string, a list, tuple, dictionary, set or frozenset, an
    instance of a dataclass or a class. *)
Theorem is_instance_answers_on_well_formed_types :
  forall type_ : Ty,
    well_formed_type type_ = true ->
    forall value : Value, exists b : bool, is_instance value type_ = Ok b.
Proof.
  intros type_.
  induction type_ as [ |c|args IH|origin args IH|origin|values|n sup IH|t IH|
                       |arg IH| | | ] using Ty_nested_ind;
    intros Hwf value; try (eexists; reflexivity).
  - (* a union *)
    cbn [is_instance]. apply any_r_total.
    cbn [well_formed_type] in Hwf. rewrite forallb_forall in Hwf.
    rewrite Forall_forall in IH |- *. intros t Ht. apply (IH t Ht (Hwf t Ht)).
  - (* an alias with arguments *)
    cbn [well_formed_type] in Hwf.
    apply andb_true_iff in Hwf. destruct Hwf as [Hwf Hargs].
    apply andb_true_iff in Hwf. destruct Hwf as [Horigin Hmap].
    rewrite forallb_forall in Hargs.
    assert (Hall : Forall (fun t => forall v, exists b, is_instance v t = Ok b) args).
    { rewrite Forall_forall in IH |- *. intros t Ht v. apply (IH t Ht (Hargs t Ht)). }
    cbn [is_instance].
    destruct (issubclass_Collection origin && negb (skip_generic_conversion origin))
      eqn:Hcoll.
    + apply andb_true_iff in Hcoll. destruct Hcoll as [Hcoll _].
      destruct (isinstance value origin) eqn:Hinst; cbn [negb];
        [|eexists; reflexivity].
      destruct (collection_instance_iterates value origin Hcoll Hinst)
        as [items Hitems].
      destruct (isinstance value c_tuple && is_tuple (TGeneric origin (Some args))).
      * rewrite Hitems. cbn [bind].
        destruct (Nat.eqb (List.length args) 1 && nth_is is_empty_tuple_object args 0);
          [eexists; reflexivity|].
        destruct (Nat.eqb (List.length args) 2 && nth_is is_Ellipsis args 1).
        -- destruct args as [|t0 rest]; [eexists; reflexivity|].
           apply all_r_total. intros item.
           inversion Hall as [|? ? H0 _]; subst. apply H0.
        -- destruct (negb (Nat.eqb (List.length args) (List.length items)));
             [eexists; reflexivity|].
           apply (all_zip_r_total (fun item t => is_instance item t) args Hall).
      * destruct (isinstance value c_Mapping) eqn:Hmapping.
        -- rewrite (mapping_origin value origin Hmapping Hinst) in Hmap.
           destruct (mapping_instance_is_dict value Hmapping) as [pairs ->].
           destruct args as [|kt [|vt [|x rest]]]; try discriminate Hmap.
           ++ cbn [dict_items bind]. apply all_r_total. intros _.
              exists true. reflexivity.
           ++ cbn [dict_items bind]. apply all_r_total. intros kv.
              inversion Hall as [|? ? Hk Hrest]; subst.
              inversion Hrest as [|? ? Hv _]; subst.
              destruct (Hk (fst kv)) as [bk ->]. cbn [bind].
              destruct bk; cbn [negb]; [|exists false; reflexivity].
              destruct (Hv (snd kv)) as [bv ->]. exists bv. reflexivity.
        -- rewrite Hitems. cbn [bind]. destruct args as [|t0 rest].
           ++ apply all_r_total. intros _. exists true. reflexivity.
           ++ apply all_r_total. intros item.
              inversion Hall as [|? ? H0 _]; subst. apply H0.
    + destruct origin; try discriminate Horigin; discriminate Hcoll.
  - (* a bare alias *)
    cbn [well_formed_type] in Hwf.
    assert (Hty : PyClass_eqb origin c_type = false)
      by (destruct origin; try discriminate Hwf; reflexivity).
    cbn [is_instance]. rewrite Hty.
    destruct (issubclass_Collection origin && negb (skip_generic_conversion origin));
      [destruct (negb (isinstance value origin))|]; eexists; reflexivity.
  - apply IH. exact Hwf.
  - apply IH. exact Hwf.
Qed.

Lemma is_instance_answers_on_well_formed_types_witness :
  well_formed_type (TGeneric c_dict (Some [str; TUnion [List int; NoneType]])) = true
  /\ exists b : bool,
       is_instance (VDict [(VStr "a", VList one_two)])
                   (TGeneric c_dict (Some [str; TUnion [List int; NoneType]]))
       = Ok b.
Proof.
  split; [reflexivity|].
  apply (is_instance_answers_on_well_formed_types
           (TGeneric c_dict (Some [str; TUnion [List int; NoneType]]))).
  reflexivity.
Defined.

End TotalityProperties.

(** ** Peeling an Optional *)

Module ExtractOptionalProperties.
Import Examples Inputs.

Lemma NoneType_eqb_is_NoneType member :
  Ty_eqb NoneType member = true -> is_not_NoneType member = false.
Proof.
  destruct member as [ |c| | | | | | | | | ]; intros H; try discriminate H.
  destruct c; try discriminate H. reflexivity.
Qed.

Lemma flat_map_members params :
  Forall (fun p => is_union p = false) params ->
  flat_map (fun p => match p with TUnion args => args | _ => [p] end) params
  = params.
Proof.
  induction 1 as [|p params Hp _ IH]; simpl; [reflexivity|].
  rewrite IH. destruct p; try discriminate Hp; reflexivity.
Qed.

Lemma unique_members_In (flat : list Ty) : forall acc x,
  In x (fold_left (fun acc p => if existsb (Ty_eqb p) acc then acc else acc ++ [p])
                  flat acc) ->
  In x acc \/ In x flat.
Proof.
  induction flat as [|p flat IH]; intros acc x H; simpl in *.
  - left. exact H.
  - apply IH in H. destruct (existsb (Ty_eqb p) acc).
    + tauto.
    + destruct H as [H|H]; [|tauto]. apply in_app_iff in H. simpl in H. tauto.
Qed.

(** [extract_optional] finds the non-null member of a two-member Optional
    in whichever order the two are declared; it raises [ValueError] on a
    union that has null members only; and what it returns for a union of
    members that are not unions themselves is never an Optional again. *)
Theorem extract_optional_peels_every_null :
  (forall member,
      is_not_NoneType member = true ->
      is_union member = false ->
      extract_optional (TUnion [member; NoneType]) = Ok member
      /\ extract_optional (TUnion [NoneType; member]) = Ok member)
  /\ (forall args,
        Forall (fun member => is_not_NoneType member = false) args ->
        extract_optional (TUnion args)
        = Raise (Python ValueError "can not find not-none value"))
  /\ (forall args peeled,
        Forall (fun member => is_union member = false) args ->
        extract_optional (TUnion args) = Ok peeled ->
        is_optional peeled = false).
Proof.
  split; [|split].
  - intros member Hnot Hu.
    split; destruct member as [ |c| | | | | | | | | ];
      try discriminate Hu; try reflexivity;
      destruct c; try discriminate Hnot; reflexivity.
  - intros args Hall. unfold extract_optional.
    replace (filter is_not_NoneType (extract_generic (TUnion args) [])) with (@nil Ty);
      [reflexivity|].
    symmetry. destruct args as [|a args]; [reflexivity|].
    cbn [extract_generic]. induction Hall as [|m ms Hm _ IH]; simpl.
    + reflexivity.
    + rewrite Hm. exact IH.
  - intros args peeled Hall H. unfold extract_optional in H.
    set (others := filter is_not_NoneType (extract_generic (TUnion args) [])) in H.
    assert (Hothers : Forall (fun m => is_union m = false /\ is_not_NoneType m = true)
                             others).
    { apply Forall_forall. intros m Hm. unfold others in Hm.
      apply filter_In in Hm. destruct Hm as [Hm Hnot]. split; [|exact Hnot].
      rewrite Forall_forall in Hall. apply Hall.
      destruct args; [destruct Hm|exact Hm]. }
    destruct others as [|o others']; [discriminate H|].
    injection H as <-. unfold Union_getitem.
    rewrite flat_map_members
      by (eapply Forall_impl; [|exact Hothers]; intros m [Hm _]; exact Hm).
    set (unique := fold_left _ _ _).
    assert (Hunique : forall m, In m unique ->
                                is_union m = false /\ is_not_NoneType m = true).
    { intros m Hm. unfold unique in Hm. apply unique_members_In in Hm.
      destruct Hm as [[]|Hm]. rewrite Forall_forall in Hothers.
      apply Hothers. exact Hm. }
    destruct unique as [|m [|m' rest]] eqn:Eunique.
    + reflexivity.
    + unfold is_optional. rewrite (proj1 (Hunique m (or_introl eq_refl))).
      reflexivity.
    + unfold is_optional. cbn [is_union andb extract_generic].
      destruct (existsb (Ty_eqb NoneType) (m :: m' :: rest)) eqn:Hex; [|reflexivity].
      apply existsb_exists in Hex. destruct Hex as (x & Hx & Heq).
      apply NoneType_eqb_is_NoneType in Heq.
      rewrite (proj2 (Hunique x Hx)) in Heq. discriminate Heq.
Qed.

Lemma extract_optional_peels_every_null_witness :
  extract_optional (TUnion [NoneType; Set_ int]) = Ok (Set_ int)
  /\ extract_optional (TUnion [NoneType; NoneType])
     = Raise (Python ValueError "can not find not-none value")
  /\ is_optional (TUnion [int; str]) = false.
Proof.
  split; [|split].
  - apply (proj1 extract_optional_peels_every_null (Set_ int)); reflexivity.
  - apply (proj1 (proj2 extract_optional_peels_every_null) [NoneType; NoneType]).
    repeat constructor.
  - apply (proj2 (proj2 extract_optional_peels_every_null)
             [int; NoneType; str] (TUnion [int; str])).
    + repeat constructor.
    + reflexivity.
Defined.

End ExtractOptionalProperties.

(** ** The transformer terminates *)

Module TerminationProperties.
Import Examples Inputs ExtractOptionalProperties.

Lemma bind_returns {A B : Type} (r : result A) (k : A -> result B) :
  r <> Timeout ->
  (forall a, r = Ok a -> k a <> Timeout) ->
  bind r k <> Timeout.
Proof.
  intros Hr Hk. destruct r as [a| |]; simpl.
  - apply Hk. reflexivity.
  - discriminate.
  - destruct (Hr eq_refl).
Qed.

Lemma map_r_returns {A B : Type} (f : A -> result B) (xs : list A) :
  (forall x, f x <> Timeout) -> map_r f xs <> Timeout.
Proof.
  intros Hf. induction xs as [|x xs IH]; simpl; [discriminate|].
  apply bind_returns; [apply Hf|]. intros y _.
  apply bind_returns; [exact IH|]. intros ys _. discriminate.
Qed.

Lemma construct_returns cls items : construct cls items <> Timeout.
Proof.
  destruct cls; simpl; try discriminate.
  apply bind_returns; [|intros; discriminate].
  apply map_r_returns. intros item.
  destruct item as [ | | | | |xs|xs| | | | | ]; try discriminate;
    destruct xs as [|k [|v [|z rest]]]; discriminate.
Qed.

Lemma construct_mapping_returns cls pairs : construct_mapping cls pairs <> Timeout.
Proof. destruct cls; discriminate. Qed.

Lemma iterate_returns value : iterate value <> Timeout.
Proof. destruct value; discriminate. Qed.

Lemma dict_get_In {K V : Type} (eqb : K -> K -> bool) key (d : list (K * V)) v :
  dict_get eqb key d = Some v -> exists k, In (k, v) d.
Proof.
  induction d as [|[k w] d IH]; simpl; [discriminate|].
  destruct (eqb key k).
  - intros H. injection H as ->. exists k. left. reflexivity.
  - intros H. destruct (IH H) as [k' Hk']. exists k'. right. exact Hk'.
Qed.

Section Returning.
Variable call : PyClass -> Value -> result Value.
Variable hooks : list (Ty * Hook).
Variable cast : list Ty.
(** Constructors and hooks are Python callables: they return or raise. *)
Hypothesis call_returns : forall cls value, call cls value <> Timeout.
Hypothesis hooks_return :
  forall key hook, In (key, hook) hooks -> forall value, hook value <> Timeout.

Lemma apply_hook_returns key value : apply_hook hooks key value <> Timeout.
Proof.
  unfold apply_hook, hook_lookup.
  destruct (dict_get Ty_eqb key hooks) as [hook|] eqn:H; [|discriminate].
  destruct (dict_get_In _ _ _ _ H) as [k Hk]. exact (hooks_return k hook Hk value).
Qed.

Lemma hook_or_cast_returns target_type value :
  hook_or_cast call hooks cast target_type value <> Timeout.
Proof.
  unfold hook_or_cast, hook_lookup.
  destruct (dict_get Ty_eqb target_type hooks) as [hook|] eqn:H.
  - destruct (dict_get_In _ _ _ _ H) as [k Hk].
    apply bind_returns; [exact (hooks_return k hook Hk value)|]. discriminate.
  - destruct (find (is_subclass target_type) cast); [|discriminate].
    unfold apply_cast. destruct (is_generic_collection target_type).
    + destruct (extract_origin_collection target_type) as [[origin| |]|];
        try discriminate.
      destruct (is_set origin).
      * apply bind_returns; [apply iterate_returns|]. discriminate.
      * apply bind_returns; [apply call_returns|]. discriminate.
    + destruct target_type; try discriminate.
      apply bind_returns; [apply call_returns|]. discriminate.
Qed.
End Returning.

Lemma list_sum_dedup (flat : list Ty) : forall acc,
  list_sum (map ty_size
              (fold_left (fun acc p => if existsb (Ty_eqb p) acc then acc else acc ++ [p])
                         flat acc))
  <= list_sum (map ty_size acc) + list_sum (map ty_size flat).
Proof.
  induction flat as [|p flat IH]; intros acc; simpl.
  - lia.
  - specialize (IH (if existsb (Ty_eqb p) acc then acc else acc ++ [p])).
    destruct (existsb (Ty_eqb p) acc).
    + lia.
    + rewrite map_app, list_sum_app in IH. simpl in IH. lia.
Qed.

Lemma list_sum_flatten (params : list Ty) :
  list_sum (map ty_size
              (flat_map (fun p => match p with TUnion args => args | _ => [p] end)
                        params))
  <= list_sum (map ty_size params).
Proof.
  induction params as [|p params IH]; simpl; [lia|].
  rewrite map_app, list_sum_app.
  destruct p; simpl; lia.
Qed.

Lemma Union_getitem_size params :
  ty_size (Union_getitem params) <= 1 + list_sum (map ty_size params).
Proof.
  unfold Union_getitem.
  pose proof (list_sum_flatten params) as Hflat.
  pose proof (list_sum_dedup
                (flat_map (fun p => match p with TUnion args => args | _ => [p] end)
                          params) []) as Hdedup.
  simpl in Hdedup.
  destruct (fold_left _ _ _) as [|m [|m' rest]]; simpl in *; lia.
Qed.

Lemma ty_size_positive t : 1 <= ty_size t.
Proof. destruct t as [ | | |origin [args|]| | |[t'|]| | | | ]; simpl; lia. Qed.

Lemma sizes_cons a (args : list Ty) :
  list_sum (map ty_size (a :: args)) = ty_size a + list_sum (map ty_size args).
Proof. reflexivity. Qed.

Lemma filter_keeps_less (args : list Ty) :
  list_sum (map ty_size (filter is_not_NoneType args))
  <= list_sum (map ty_size args).
Proof.
  induction args as [|b args IH]; [apply Nat.le_refl|].
  cbn [filter]. rewrite sizes_cons.
  destruct (is_not_NoneType b); [rewrite sizes_cons|]; lia.
Qed.

Lemma filter_drops_NoneType (args : list Ty) :
  existsb (Ty_eqb NoneType) args = true ->
  S (list_sum (map ty_size (filter is_not_NoneType args)))
  <= list_sum (map ty_size args).
Proof.
  induction args as [|a args IH]; cbn [existsb filter]; [discriminate|].
  rewrite sizes_cons.
  pose proof (filter_keeps_less args) as Hle.
  pose proof (ty_size_positive a) as Hpos.
  destruct (Ty_eqb NoneType a) eqn:Ha.
  - intros _. rewrite (NoneType_eqb_is_NoneType a Ha). lia.
  - cbn [orb]. intros H. specialize (IH H).
    destruct (is_not_NoneType a); [rewrite sizes_cons|]; lia.
Qed.

(** What the Optional is peeled to is smaller than the Optional. *)
Lemma extract_optional_smaller target_type peeled :
  is_optional target_type = true ->
  extract_optional target_type = Ok peeled ->
  ty_size peeled < ty_size target_type.
Proof.
  unfold is_optional, extract_optional. intros Ho H.
  apply andb_true_iff in Ho. destruct Ho as [Hu Hex].
  destruct target_type as [ | |args| | | | | | | | ]; try discriminate Hu.
  destruct (filter is_not_NoneType (extract_generic (TUnion args) [])) eqn:Hf;
    [discriminate H|].
  injection H as <-. rewrite <- Hf.
  pose proof (Union_getitem_size
                (filter is_not_NoneType (extract_generic (TUnion args) []))) as Hsize.
  pose proof (filter_drops_NoneType _ Hex) as Hdrop.
  destruct args as [|a args]; [discriminate Hex|].
  cbn [extract_generic] in *. cbn [ty_size]. lia.
Qed.

(** The type an element is transformed against is smaller than the
    collection alias. *)
Lemma element_type_smaller target_type defaults item_cls :
  is_generic_collection target_type = true ->
  Forall (fun t => t = TAny) defaults ->
  In item_cls (extract_generic target_type defaults) ->
  ty_size item_cls < ty_size target_type.
Proof.
  intros Hc Hdefaults Hin.
  destruct target_type as [ | | |origin [args|]| | | | | | | ]; try discriminate Hc.
  - cbn [extract_generic] in Hin.
    assert (In item_cls args \/ In item_cls defaults) as [H|H]
      by (destruct args; [right|left]; exact Hin).
    + cbn [ty_size]. clear -H. induction args as [|a args IH]; [destruct H|].
      simpl. destruct H as [->|H]; [lia|]. specialize (IH H). simpl in IH. lia.
    + rewrite Forall_forall in Hdefaults. rewrite (Hdefaults _ H).
      cbn [ty_size]. lia.
  - cbn [extract_generic] in Hin.
    rewrite Forall_forall in Hdefaults. rewrite (Hdefaults _ Hin). simpl. lia.
Qed.

(** [transform_value] terminates: its recursion is as deep as the
    declared type is large at most, whatever the value, the hooks and the
    casts are.  With more fuel than the size of the declared type the
    transformer returns a value or raises. *)
Theorem transform_value_terminates :
  forall call hooks cast,
    (forall cls value, call cls value <> Timeout) ->
    (forall key hook, In (key, hook) hooks -> forall value, hook value <> Timeout) ->
    forall fuel target_type value,
      ty_size target_type < fuel ->
      transform_value call fuel hooks cast target_type value <> Timeout.
Proof.
  intros call hooks cast Hcall Hhooks.
  induction fuel as [|fuel IH]; intros target_type value Hsize; [lia|].
  cbn [transform_value]. unfold transform_value_body.
  apply bind_returns; [apply apply_hook_returns; assumption|]. intros v0 _.
  apply bind_returns.
  { destruct (is_generic_collection target_type); [|discriminate].
    destruct (extract_origin_type target_type); [|discriminate].
    apply apply_hook_returns; assumption. }
  intros v1 _.
  apply bind_returns; [apply hook_or_cast_returns; assumption|].
  intros [v2|v2] _; [|discriminate].
  unfold peel_and_recurse.
  destruct (is_optional target_type) eqn:Ho.
  - destruct (extract_optional target_type) as [peeled| |] eqn:Hp.
    + pose proof (extract_optional_smaller _ _ Ho Hp) as Hlt.
      destruct v2; try discriminate; cbn [bind]; apply IH; lia.
    + destruct v2; discriminate.
    + unfold extract_optional in Hp.
      destruct (filter is_not_NoneType (extract_generic target_type []));
        discriminate Hp.
  - destruct (is_generic_collection target_type) eqn:Hc; [|discriminate].
    cbn [andb].
    destruct (match extract_origin_collection target_type with
              | Some (o_class origin) => isinstance v2 origin
              | _ => false
              end); [|discriminate].
    destruct (issubclass (class_of v2) c_dict).
    + destruct (extract_generic target_type [TAny; TAny])
        as [|key_cls [|item_cls [|x rest]]] eqn:He; try discriminate.
      cbn [unpack2 bind].
      assert (ty_size key_cls < ty_size target_type) as Hk.
      { apply (element_type_smaller target_type [TAny; TAny]);
          [exact Hc|repeat constructor|rewrite He; simpl; tauto]. }
      assert (ty_size item_cls < ty_size target_type) as Hi.
      { apply (element_type_smaller target_type [TAny; TAny]);
          [exact Hc|repeat constructor|rewrite He; simpl; tauto]. }
      apply bind_returns; [destruct v2; discriminate|]. intros pairs _.
      apply bind_returns; [|intros; apply construct_mapping_returns].
      apply map_r_returns. intros kv.
      apply bind_returns; [apply IH; lia|]. intros k _.
      apply bind_returns; [apply IH; lia|]. discriminate.
    + destruct (extract_generic target_type [TAny]) as [|item_cls rest] eqn:He;
        [discriminate|].
      cbn [index nth_error bind].
      assert (ty_size item_cls < ty_size target_type) as Hi.
      { apply (element_type_smaller target_type [TAny]);
          [exact Hc|repeat constructor|rewrite He; simpl; tauto]. }
      apply bind_returns; [apply iterate_returns|]. intros items _.
      apply bind_returns; [|intros; apply construct_returns].
      apply map_r_returns. intros item. apply IH. lia.
Qed.

Lemma transform_value_terminates_witness :
  transform_value builtin_call 6 list_and_element_hooks [TClass c_list]
                  (Optional (List int)) (VTuple one_two)
  <> Timeout.
Proof.
  apply transform_value_terminates.
  - intros cls value. unfold builtin_call, call_container.
    destruct cls; try (destruct (isinstance value _); discriminate);
      destruct value; try discriminate;
      try (apply bind_returns; [apply iterate_returns|intros; apply construct_returns]).
  - intros key hook [H|[H|[]]] value; injection H as <- <-.
    + unfold reversed. apply bind_returns; [apply iterate_returns|discriminate].
    + destruct value; discriminate.
  - simpl. lia.
Defined.

End TerminationProperties.

(** ** Rebuilding a container from its own elements *)

Module IdentityProperties.
Import Examples Inputs.

Lemma set_of_distinct_items (xs : list Value) : forall seen,
  distinct Value_eqb seen xs = true ->
  fold_left (fun acc x => if existsb (Value_eqb x) acc then acc else acc ++ [x])
            xs seen
  = seen ++ xs.
Proof.
  induction xs as [|x xs IH]; intros seen H; simpl in *.
  - rewrite app_nil_r. reflexivity.
  - apply andb_true_iff in H. destruct H as [Hx Hrest].
    apply negb_true_iff in Hx. rewrite Hx, (IH _ Hrest), <- app_assoc.
    reflexivity.
Qed.

Lemma dict_set_fresh (key value : Value) (d : list (Value * Value)) :
  existsb (Value_eqb key) (map fst d) = false ->
  dict_set Value_eqb key value d = d ++ [(key, value)].
Proof.
  induction d as [|[k v] d IH]; simpl; [reflexivity|].
  intros H. apply orb_false_iff in H. destruct H as [Hk Hd].
  rewrite Hk, (IH Hd). reflexivity.
Qed.

Lemma dict_of_distinct_pairs (pairs : list (Value * Value)) : forall seen,
  distinct Value_eqb (map fst seen) (map fst pairs) = true ->
  fold_left (fun d kv => dict_set Value_eqb (fst kv) (snd kv) d) pairs seen
  = seen ++ pairs.
Proof.
  induction pairs as [|[k v] pairs IH]; intros seen H; simpl in *.
  - rewrite app_nil_r. reflexivity.
  - apply andb_true_iff in H. destruct H as [Hk Hrest].
    apply negb_true_iff in Hk. rewrite (dict_set_fresh k v seen Hk).
    rewrite IH, <- app_assoc; [reflexivity|].
    rewrite map_app. exact Hrest.
Qed.

(** Without hooks and casts only the last part of [transform_value]
    runs. *)
Lemma transform_value_body_without_hooks call rec target_type value :
  transform_value_body call rec [] [] target_type value
  = peel_and_recurse rec target_type value.
Proof.
  unfold transform_value_body.
  destruct (is_generic_collection target_type);
    [destruct (extract_origin_type target_type)|]; reflexivity.
Qed.

End IdentityProperties.

(** ** Hooks and casts through the levels of the transformer *)

Module HookOrderProperties.
Import Examples Inputs.

Lemma find_some {A : Type} (p : A -> bool) (xs : list A) (x : A) :
  In x xs -> p x = true -> exists y, find p xs = Some y.
Proof.
  induction xs as [|z xs IH]; intros Hin Hp; [destruct Hin|].
  simpl. destruct (p z) eqn:Hz; [exists z; reflexivity|].
  destruct Hin as [->|Hin]; [rewrite Hp in Hz; discriminate Hz|].
  apply IH; assumption.
Qed.

(** How often the wildcard hook, the one registered for [Any], is applied
    to one value.  For a declared type [Any] it is applied twice in a row,
    as the wildcard hook and again as the exact hook of that type,
    whatever other hooks and casts are registered.  With no other hook
    and no cast, it is applied once for a declared plain class, and for a
    declared [Optional[C]], [C] a class other than [NoneType], it is
    applied to the raw value and, unless that gave [None], a second time
    to its own result when the Optional is peeled and [C] is
    transformed. *)
Theorem wildcard_hook_is_applied_again :
  (forall call fuel hooks cast (hook : Hook) value,
      hook_lookup TAny hooks = Some hook ->
      transform_value call (S fuel) hooks cast TAny value
      = (once <- hook value ;; hook once))
  /\ (forall call fuel (hook : Hook) c value,
        transform_value call (S fuel) [(TAny, hook)] [] (TClass c) value
        = hook value)
  /\ (forall call fuel (hook : Hook) c value,
        is_not_NoneType (TClass c) = true ->
        transform_value call (S (S fuel)) [(TAny, hook)] [] (Optional (TClass c)) value
        = (once <- hook value ;;
           match once with
           | VNone => Ok VNone
           | _ => hook once
           end)).
Proof.
  assert (Hinner : forall call fuel (hook : Hook) c v,
             transform_value call (S fuel) [(TAny, hook)] [] (TClass c) v = hook v).
  { intros call fuel hook c v. cbn [transform_value]. unfold transform_value_body.
    change (apply_hook [(TAny, hook)] TAny v) with (hook v).
    destruct (hook v); reflexivity. }
  split; [|split; [exact Hinner|]].
  - intros call fuel hooks cast hook value Hany.
    cbn [transform_value]. unfold transform_value_body, apply_hook.
    rewrite Hany. destruct (hook value) as [once| |]; try reflexivity.
    cbn [bind]. change (is_generic_collection TAny) with false. cbn [bind].
    unfold hook_or_cast. rewrite Hany.
    destruct (hook once); reflexivity.
  - intros call fuel hook c value Hc.
    assert (Hpeel : extract_optional (Optional (TClass c)) = Ok (TClass c)).
    { destruct c; try discriminate Hc; reflexivity. }
    assert (Hopt : is_optional (Optional (TClass c)) = true).
    { destruct c; reflexivity. }
    change (transform_value call (S (S fuel)) [(TAny, hook)] [] (Optional (TClass c)) value)
      with (transform_value_body call (transform_value call (S fuel) [(TAny, hook)] [])
              [(TAny, hook)] [] (Optional (TClass c)) value).
    unfold transform_value_body.
    change (apply_hook [(TAny, hook)] TAny value) with (hook value).
    destruct (hook value) as [once| |]; try reflexivity.
    cbn [bind is_generic_collection is_generic Optional negb].
    change (hook_or_cast call [(TAny, hook)] [] (TUnion [TClass c; NoneType]) once)
      with (@Ok Flow (Continue once)).
    cbn [bind]. unfold peel_and_recurse.
    fold (Optional (TClass c)). rewrite Hopt, Hpeel. cbn [bind].
    destruct once; try reflexivity; apply Hinner.
Qed.

Lemma wildcard_hook_is_applied_again_witness :
  transform_value builtin_call 1 [(TAny, increment)] [TClass c_int] TAny (VInt 1)
  = Ok (VInt 3)
  /\ transform_value builtin_call 1 [(TAny, increment)] [] int (VInt 1)
     = Ok (VInt 2)
  /\ is_not_NoneType int = true
  /\ transform_value builtin_call 2 [(TAny, increment)] [] (Optional int) (VInt 1)
     = Ok (VInt 3).
Proof.
  split; [|split; [|split; [reflexivity|]]].
  - rewrite (proj1 wildcard_hook_is_applied_again builtin_call 0
               [(TAny, increment)] [TClass c_int] increment (VInt 1) eq_refl).
    reflexivity.
  - unfold int.
    rewrite (proj1 (proj2 wildcard_hook_is_applied_again) builtin_call 0
               increment c_int (VInt 1)).
    reflexivity.
  - unfold int.
    rewrite (proj2 (proj2 wildcard_hook_is_applied_again) builtin_call 0
               increment c_int (VInt 1) eq_refl).
    reflexivity.
Defined.

(** A cast that applies to a set-like declared type ends the transform
    at once: the value is turned into the list of its elements and
    returned, so the result is a list, not a set, and its elements are not
    transformed, whatever hooks or casts are registered for their type. *)
Theorem set_cast_returns_list_of_untransformed_elements :
  forall call fuel hooks cast target_type cast_type value,
    is_set_collection target_type = true ->
    hook_lookup target_type hooks = None ->
    In cast_type cast ->
    is_subclass target_type cast_type = true ->
    transform_value call (S fuel) hooks cast target_type value
    = (hooked <- apply_hook hooks TAny value ;;
       items <- iterate hooked ;;
       Ok (VList items)).
Proof.
  intros call fuel hooks cast target_type cast_type value Hset Hexact Hin Hsub.
  destruct (find_some (is_subclass target_type) cast cast_type Hin Hsub) as [y Hfind].
  unfold is_set_collection in Hset. apply andb_true_iff in Hset.
  destruct Hset as [Hcoll Hset].
  cbn [transform_value]. unfold transform_value_body.
  destruct (apply_hook hooks TAny value) as [hooked| |]; try reflexivity.
  cbn [bind]. rewrite Hcoll.
  assert (Horigin : extract_origin_type target_type = None).
  { unfold extract_origin_type.
    destruct (extract_origin_collection target_type) as [[origin| |]|];
      try reflexivity.
    destruct origin; try discriminate Hset; reflexivity. }
  rewrite Horigin. cbn [bind].
  unfold hook_or_cast. rewrite Hexact, Hfind.
  unfold apply_cast. rewrite Hcoll.
  destruct (extract_origin_collection target_type) as [[origin| |]|];
    try discriminate Hset.
  rewrite Hset. destruct (iterate hooked); reflexivity.
Qed.

Lemma set_cast_returns_list_of_untransformed_elements_witness :
  is_set_collection (Set_ int) = true
  /\ transform_value builtin_call 2 [(int, increment)] [TClass c_set]
                     (Set_ int) (VTuple [VInt 1; VInt 1; VInt 2])
     = Ok (VList [VInt 1; VInt 1; VInt 2])
  /\ transform_value builtin_call 2 [(int, increment)] []
                     (Set_ int) (VSet one_two)
     = Ok (VSet [VInt 2; VInt 3]).
Proof.
  split; [reflexivity|]. split; [|reflexivity].
  rewrite (set_cast_returns_list_of_untransformed_elements builtin_call 1
             [(int, increment)] [TClass c_set] (Set_ int) (TClass c_set)
             (VTuple [VInt 1; VInt 1; VInt 2]) eq_refl eq_refl
             (or_introl eq_refl) eq_refl).
  reflexivity.
Defined.

End HookOrderProperties.

(** ** More on union resolution *)

Module UnionOutcomeProperties.
Import Examples Inputs UnionProperties.










End UnionOutcomeProperties.

(** ** More on collection reconstruction *)

Module ReconstructionProperties.
Import Examples Inputs IdentityProperties EqualityProperties.

Lemma map_r_values (rec : Value -> result Value) (pairs : list (Value * Value)) :
  forall built,
    map_r (fun '(key, value) => v <- rec value ;; Ok (key, v)) pairs = Ok built ->
    exists values,
      map_r rec (map snd pairs) = Ok values
      /\ built = combine (map fst pairs) values
      /\ map fst built = map fst pairs.
Proof.
  induction pairs as [|[k v] pairs IH]; simpl; intros built H.
  - injection H as <-. exists []. repeat split.
  - destruct (rec v) as [v'| |]; try discriminate H. cbn [bind] in H.
    destruct (map_r _ pairs) as [built'| |]; try discriminate H. cbn [bind] in H.
    injection H as <-. destruct (IH built' eq_refl) as (values & Hv & Hb & Hk).
    exists (v' :: values). rewrite Hv. cbn [bind]. subst built'.
    repeat split. simpl. rewrite Hk. reflexivity.
Qed.

(** When a dictionary is rebuilt, its keys stay as they are, in their
    order, and are built against nothing, whatever key type is declared;
    each value is built against the second argument of the alias, or
    [Any] when the alias has no arguments.  The result is a dictionary
    again. *)
Theorem mapping_reconstruction_builds_values_only :
  forall rec collection pairs out,
    distinct Value_eqb [] (map fst pairs) = true ->
    _build_value_for_collection rec collection (VDict pairs) = Ok out ->
    exists item_type values,
      index (extract_generic collection [TAny; TAny]) 1 = Ok item_type
      /\ map_r (rec item_type) (map snd pairs) = Ok values
      /\ out = VDict (combine (map fst pairs) values).
Proof.
  intros rec collection pairs out Hkeys H.
  unfold _build_value_for_collection in H.
  change (is_instance (VDict pairs) (TGeneric c_Mapping None)) with (@Ok bool true) in H.
  cbn [bind] in H.
  destruct (index (extract_generic collection [TAny; TAny]) 1) as [item_type| |];
    try discriminate H.
  cbn [bind dict_items] in H.
  destruct (map_r _ pairs) as [built| |] eqn:Hmap; try discriminate H.
  cbn [bind class_of construct_mapping] in H. injection H as <-.
  destruct (map_r_values (rec item_type) pairs built Hmap) as (values & Hv & Hb & Hk).
  exists item_type, values. repeat split; [exact Hv|].
  unfold dict_of_pairs. rewrite (dict_of_distinct_pairs built []).
  - rewrite Hb. reflexivity.
  - cbn [map]. rewrite Hk. exact Hkeys.
Qed.

Lemma mapping_reconstruction_builds_values_only_witness :
  let rec := _build_value (runtime []) default_config 2 in
  let raw := [(VTuple one_two, VList one_two)] in
  distinct Value_eqb [] (map fst raw) = true
  /\ _build_value_for_collection rec
       (TGeneric c_dict (Some [Set_ int; Set_ int])) (VDict raw)
     = Ok (VDict [(VTuple one_two, VSet one_two)])
  /\ exists item_type values,
       index (extract_generic (TGeneric c_dict (Some [Set_ int; Set_ int]))
                              [TAny; TAny]) 1 = Ok item_type
       /\ map_r (rec item_type) (map snd raw) = Ok values
       /\ VDict [(VTuple one_two, VSet one_two)]
          = VDict (combine (map fst raw) values).
Proof.
  intros rec raw. split; [reflexivity|]. split; [reflexivity|].
  apply (mapping_reconstruction_builds_values_only rec
           (TGeneric c_dict (Some [Set_ int; Set_ int])) raw
           (VDict [(VTuple one_two, VSet one_two)])); reflexivity.
Defined.

(** A set alias builds from whatever can be iterated, and so iterates
    over data that cannot: for a declared [Set] or [FrozenSet] alias, bare
    or subscripted, data that is [None], a bool, an int or a float makes
    the builder raise the [TypeError] of the failed iteration, where for a
    container alias of any other origin the builder returns such data as
    it is and leaves it to the type check.  From a field of a record,
    with no hooks and no casts configured, that [TypeError] leaves the
    field loop as it is: it is no [DaciteFieldError], it gets no field
    path, and it is raised whether or not types are checked. *)
Theorem set_alias_raises_on_scalar_data :
  (forall rt config n origin args data,
      is_set origin = true ->
      is_scalar data = true ->
      _build_value rt config (S n) (TGeneric origin args) data
      = Raise (Python TypeError "object is not iterable"))
  /\ (forall rt config n origin args data,
        container_origin origin = true ->
        is_set origin = false ->
        is_scalar data = true ->
        _build_value rt config (S n) (TGeneric origin args) data = Ok data)
  /\ (forall rt config fuel n hints raw values field origin args data,
        type_hooks config = [] ->
        cast config = [] ->
        dict_get String.eqb (name field) hints = Some (TGeneric origin args) ->
        dict_get Value_eqb (VStr (name field)) raw = Some data ->
        is_set origin = true ->
        is_scalar data = true ->
        from_dict_field rt config (S fuel) (_build_value rt config (S n))
                        hints raw values field
        = Raise (Python TypeError "object is not iterable")).
Proof.
  assert (Hset : forall rt config n origin args data,
             is_set origin = true ->
             is_scalar data = true ->
             _build_value rt config (S n) (TGeneric origin args) data
             = Raise (Python TypeError "object is not iterable")).
  { intros rt config n origin args data Horigin Hdata.
    destruct origin; try discriminate Horigin;
      destruct data; try discriminate Hdata; reflexivity. }
  split; [exact Hset|split].
  - intros rt config n origin args data Horigin Hnot Hdata.
    destruct origin; try discriminate Horigin; try discriminate Hnot;
      destruct data; try discriminate Hdata; reflexivity.
  - intros rt config fuel n hints raw values field origin args data
           Hhooks Hcast Hhint Hraw Horigin Hdata.
    assert (Htransform :
              transform rt config (S fuel) (TGeneric origin args) data = Ok data).
    { unfold transform. rewrite Hhooks, Hcast.
      destruct origin; try discriminate Horigin;
        destruct data; try discriminate Hdata; reflexivity. }
    unfold from_dict_field. destruct values as [init_values post_init_values].
    rewrite Hhint. cbn [bind name type init set_type]. rewrite Hraw.
    rewrite Htransform. cbn [bind].
    rewrite (Hset rt config n origin args data Horigin Hdata). reflexivity.
Qed.

Lemma set_alias_raises_on_scalar_data_witness :
  let rt := runtime [] in
  _build_value rt default_config 2 (Set_ int) VNone
  = Raise (Python TypeError "object is not iterable")
  /\ _build_value rt default_config 2 (List int) VNone = Ok VNone
  /\ from_dict_field rt default_config 2 (_build_value rt default_config 2)
                     [("tags", Set_ int)] [(VStr "tags", VInt 5)] ([], [])
                     (field "tags" (Set_ int))
     = Raise (Python TypeError "object is not iterable").
Proof.
  intros rt. split; [|split].
  - apply (proj1 set_alias_raises_on_scalar_data rt default_config 1
             c_set (Some [int]) VNone); reflexivity.
  - apply (proj1 (proj2 set_alias_raises_on_scalar_data) rt default_config 1
             c_list (Some [int]) VNone); reflexivity.
  - apply (proj2 (proj2 set_alias_raises_on_scalar_data) rt default_config 1 1
             [("tags", Set_ int)] [(VStr "tags", VInt 5)] ([], [])
             (field "tags" (Set_ int)) c_set (Some [int]) (VInt 5)); reflexivity.
Defined.

End ReconstructionProperties.

(** ** Records of plain fields *)

Module FlatRecordProperties.
Import Examples Inputs EqualityProperties AssemblerProperties.

Lemma annotation_lookup (fs : list Field) (f : Field) :
  NoDup (map name fs) -> In f fs ->
  dict_get String.eqb (name f) (annotations fs) = Some (type f).
Proof.
  induction fs as [|g fs IH]; intros Hnd Hin; [destruct Hin|].
  simpl. inversion Hnd as [|? ? Hg Hrest]; subst.
  destruct (String.eqb (name f) (name g)) eqn:E.
  - apply String.eqb_eq in E. destruct Hin as [->|Hin]; [reflexivity|].
    exfalso. apply Hg. rewrite <- E. apply in_map. exact Hin.
  - destruct Hin as [->|Hin]; [rewrite String.eqb_refl in E; discriminate E|].
    apply IH; assumption.
Qed.

Lemma raw_lookup (bound : list (Field * Value)) (f : Field) (v : Value) :
  NoDup (map (fun fv => name (fst fv)) bound) -> In (f, v) bound ->
  dict_get Value_eqb (VStr (name f)) (raw_record bound) = Some v.
Proof.
  induction bound as [|[g w] bound IH]; intros Hnd Hin; [destruct Hin|].
  cbn [raw_record map dict_get fst snd Value_eqb].
  inversion Hnd as [|? ? Hg Hrest]; subst. cbn [fst] in Hg.
  destruct (String.eqb (name f) (name g)) eqn:E.
  - apply String.eqb_eq in E. destruct Hin as [Heq|Hin];
      [injection Heq as _ ->; reflexivity|].
    exfalso. apply Hg. rewrite <- E.
    apply (in_map (fun fv => name (fst fv)) bound (f, v)). exact Hin.
  - destruct Hin as [Heq|Hin];
      [injection Heq as -> _; rewrite String.eqb_refl in E; discriminate E|].
    apply IH; assumption.
Qed.

Lemma init_value_fresh (n : string) (v : Value) (d : DictData) :
  ~ In n (map fst d) ->
  dict_set String.eqb n v d = d ++ [(n, v)].
Proof.
  induction d as [|[k w] d IH]; simpl; intros H; [reflexivity|].
  destruct (String.eqb n k) eqn:E.
  - apply String.eqb_eq in E. exfalso. apply H. left. symmetry. exact E.
  - rewrite IH; [reflexivity|]. intros Hin. apply H. right. exact Hin.
Qed.

Lemma plain_annotations_have_no_InitVar (fs : list Field) :
  Forall (fun f => exists c, type f = TClass c) fs ->
  map (fun '(attr, type_hint) =>
         if is_init_var type_hint then (attr, extract_init_var type_hint)
         else (attr, type_hint)) (annotations fs)
  = annotations fs.
Proof.
  induction 1 as [|f fs [c Hc] _ IH]; simpl; [reflexivity|].
  rewrite IH, Hc. reflexivity.
Qed.

Section Loop.
Variable rt : Runtime.
Variable config : Config.
Variable fuel : nat.
Hypothesis no_hooks : type_hooks config = [].
Hypothesis no_casts : cast config = [].

(** One plain field, present in the raw record, is bound to its raw
    value. *)
Lemma plain_field_is_bound hints data init_values f v :
  plain_binding rt (f, v) ->
  dict_get String.eqb (name f) hints = Some (type f) ->
  dict_get Value_eqb (VStr (name f)) data = Some v ->
  ~ In (name f) (map fst init_values) ->
  from_dict_field rt config (S fuel) (_build_value rt config (S fuel))
                  hints data (init_values, []) f
  = Ok (init_values ++ [(name f, v)], []).
Proof.
  intros (Hinit & c & Hty & Hclass & Hconf) Hhint Hdata Hfresh.
  cbn [fst snd] in *.
  unfold from_dict_field. rewrite Hhint. cbn [bind].
  cbn [name type init set_type]. rewrite Hdata, Hty.
  unfold transform. rewrite no_hooks, no_casts.
  change (transform_value (call rt) (S fuel) [] [] (TClass c) v) with (@Ok Value v).
  cbn [bind].
  assert (Hbuild : _build_value rt config (S fuel) (TClass c) v = Ok v).
  { cbn [_build_value]. unfold _build_value_body.
    cbn [is_init_var is_union is_generic_collection is_generic negb].
    rewrite Hclass. reflexivity. }
  rewrite Hbuild. cbn [with_field_path bind]. rewrite Hconf.
  rewrite Hinit, (init_value_fresh _ v init_values Hfresh).
  destruct (check_types config); reflexivity.
Qed.

Lemma plain_fields_are_bound hints data (todo : list (Field * Value)) :
  forall done,
    Forall (plain_binding rt) todo ->
    NoDup (map (fun fv => name (fst fv)) (done ++ todo)) ->
    (forall f v, In (f, v) todo ->
                 dict_get String.eqb (name f) hints = Some (type f)
                 /\ dict_get Value_eqb (VStr (name f)) data = Some v) ->
    from_dict_fields rt config (S fuel) (_build_value rt config (S fuel))
                     hints data (init_values_of done, []) (map fst todo)
    = Ok (init_values_of (done ++ todo), []).
Proof.
  induction todo as [|[f v] todo IH]; intros done Hplain Hnd Hlook.
  - rewrite app_nil_r. reflexivity.
  - inversion Hplain as [|? ? Hf Hrest]; subst.
    destruct (Hlook f v (or_introl eq_refl)) as [Hhint Hdata].
    cbn [map fst from_dict_fields].
    pose proof (plain_field_is_bound hints data (init_values_of done) f v
                  Hf Hhint Hdata) as Hstep.
    unfold DictData in *. rewrite Hstep.
    + cbn [bind].
      replace (init_values_of done ++ [(name f, v)])
        with (init_values_of (done ++ [(f, v)]))
        by (unfold init_values_of; rewrite map_app; reflexivity).
      replace (done ++ (f, v) :: todo) with ((done ++ [(f, v)]) ++ todo)
        by (rewrite <- app_assoc; reflexivity).
      apply IH.
      * exact Hrest.
      * rewrite <- app_assoc. exact Hnd.
      * intros g w Hin. apply Hlook. right. exact Hin.
    + unfold init_values_of. rewrite map_map. cbn [fst].
      rewrite map_app in Hnd. apply NoDup_remove_2 in Hnd.
      intros Hin. apply Hnd. apply in_or_app. left. exact Hin.
Qed.
End Loop.

(** The round trip of a flat record.  For a dataclass whose fields are
    constructor fields of plain classes with distinct names, and a raw
    record that gives every field a value of its class, [from_dict]
    without hooks and casts hands exactly these values, field by field in
    declaration order, to the constructor, in strict mode or not and with
    type checking or without. *)
Theorem flat_record_round_trip :
  forall rt config fuel data_class bound,
    type_hooks config = [] ->
    cast config = [] ->
    fields data_class = map fst bound ->
    get_type_hints data_class (forward_references config)
    = Ok (annotations (fields data_class)) ->
    NoDup (map (fun fv => name (fst fv)) bound) ->
    Forall (plain_binding rt) bound ->
    from_dict rt (S fuel) data_class (raw_record bound) (Some config)
    = create_instance rt data_class (init_values_of bound) [].
Proof.
  intros rt config fuel data_class bound Hhooks Hcasts Hfields Hhints Hnd Hplain.
  unfold from_dict, from_dict_body, get_data_class_hints.
  rewrite Hhints. cbn [bind].
  rewrite plain_annotations_have_no_InitVar.
  2:{ rewrite Hfields. apply Forall_forall. intros f Hf.
      apply in_map_iff in Hf. destruct Hf as ([g v] & <- & Hin).
      rewrite Forall_forall in Hplain.
      destruct (Hplain _ Hin) as (_ & c & Hc & _). exists c. exact Hc. }
  assert (Hextra : extra_keys (raw_record bound) (fields data_class) = []).
  { destruct (extra_keys (raw_record bound) (fields data_class)) as [|key rest] eqn:E;
      [reflexivity|].
    assert (In key (extra_keys (raw_record bound) (fields data_class))) as Hin
      by (rewrite E; left; reflexivity).
    apply extra_keys_In in Hin. destruct Hin as [Hkey Hno].
    unfold raw_record in Hkey. rewrite map_map in Hkey. cbn [fst] in Hkey.
    apply in_map_iff in Hkey. destruct Hkey as ([f v] & <- & Hfv).
    exfalso. apply (Hno f); [|reflexivity].
    rewrite Hfields. apply (in_map fst bound (f, v)). exact Hfv. }
  rewrite Hextra.
  replace (if strict config then Ok tt else Ok tt) with (@Ok unit tt)
    by (destruct (strict config); reflexivity).
  cbn [bind]. rewrite Hfields.
  assert (Hloop :
            from_dict_fields rt config (S fuel) (_build_value rt config (S fuel))
                             (annotations (map fst bound)) (raw_record bound)
                             ([], []) (map fst bound)
            = Ok (init_values_of bound, [])).
  { apply (plain_fields_are_bound rt config fuel Hhooks Hcasts
             (annotations (map fst bound)) (raw_record bound) bound []
             Hplain Hnd).
    intros f v Hin. split.
    - apply annotation_lookup.
      + rewrite map_map. exact Hnd.
      + apply (in_map fst bound (f, v)). exact Hin.
    - apply raw_lookup; assumption. }
  unfold DictData in *. rewrite Hloop. reflexivity.
Qed.

Lemma flat_record_round_trip_witness :
  let bound := [(field "id" int, VInt 7); (field "label" str, VStr "seven")] in
  from_dict (runtime []) 1
            (dataclass "Item" [field "id" int; field "label" str])
            (raw_record bound) (Some strict_keys)
  = Ok (VInstance "Item" [("id", VInt 7); ("label", VStr "seven")] []).
Proof.
  intros bound.
  apply (flat_record_round_trip (runtime []) strict_keys 0
           (dataclass "Item" [field "id" int; field "label" str]) bound).
  - reflexivity.
  - reflexivity.
  - reflexivity.
  - reflexivity.
  - repeat constructor; simpl; intuition discriminate.
  - repeat constructor; simpl; try (eexists; repeat split; reflexivity).
Defined.

End FlatRecordProperties.

(** ** Errors of the record assembler *)

Module AssemblerErrorProperties.
Import Examples Inputs.

Lemma from_dict_fields_app rt config fuel rec hints data pre : forall post values,
  from_dict_fields rt config fuel rec hints data values (pre ++ post)
  = (values' <- from_dict_fields rt config fuel rec hints data values pre ;;
     from_dict_fields rt config fuel rec hints data values' post).
Proof.
  induction pre as [|f pre IH]; intros post values; simpl; [reflexivity|].
  destruct (from_dict_field rt config fuel rec hints data values f) as [v| |];
    simpl; [apply IH|reflexivity|reflexivity].
Qed.

(** A constructor field that the raw record lacks and that has no default
    makes [from_dict] raise [MissingValueError] with the name of that
    field, once the fields declared before it have been processed; the
    fields declared after it are not looked at.  This holds in either
    mode of [strict]: in strict mode the raw record must first have passed
    the check for unexpected keys, which comes before the fields. *)
Theorem missing_field_is_reported_by_name :
  forall rt config fuel data_class data data_class_hints pre field post
         values hint,
    get_data_class_hints data_class (forward_references config)
    = Ok data_class_hints ->
    (strict config = true -> extra_keys data (fields data_class) = []) ->
    fields data_class = pre ++ field :: post ->
    from_dict_fields rt config fuel (_build_value rt config fuel)
                     data_class_hints data ([], []) pre
    = Ok values ->
    dict_get String.eqb (name field) data_class_hints = Some hint ->
    dict_get Value_eqb (VStr (name field)) data = None ->
    init field = true ->
    get_default_value_for_field rt (set_type field hint)
                                (allow_missing_fields_as_none config) = None ->
    from_dict rt fuel data_class data (Some config)
    = Raise (MissingValueError (Some (name field))).
Proof.
  intros rt config fuel data_class data hints pre field post values hint
         Hhints Hkeys Hfields Hpre Hhint Habsent Hinit Hdefault.
  unfold from_dict, from_dict_body. rewrite Hhints. cbn [bind].
  assert (Hcheck :
            (if strict config
             then match extra_keys data (fields data_class) with
                  | [] => Ok tt
                  | _ => Raise (UnexpectedDataError
                                  (extra_keys data (fields data_class)))
                  end
             else Ok tt) = Ok tt).
  { destruct (strict config); [rewrite (Hkeys eq_refl)|]; reflexivity. }
  cbv zeta. rewrite Hcheck. cbn [bind]. rewrite Hfields, from_dict_fields_app.
  unfold DictData in *. rewrite Hpre. cbn [bind from_dict_fields].
  destruct values as [init_values post_init_values].
  unfold from_dict_field. rewrite Hhint. cbn [bind].
  cbn [name type init set_type]. rewrite Habsent, Hinit. cbn [negb].
  rewrite Hdefault. reflexivity.
Qed.

Lemma missing_field_is_reported_by_name_witness :
  from_dict (runtime []) 1 TwoInts [(VStr "a", VInt 1)] (Some default_config)
  = Raise (MissingValueError (Some "b"))
  /\ from_dict (runtime []) 1 TwoInts [(VStr "a", VInt 1)] (Some strict_keys)
     = Raise (MissingValueError (Some "b")).
Proof.
  split.
  - apply (missing_field_is_reported_by_name (runtime []) default_config 1 TwoInts
             [(VStr "a", VInt 1)] [("a", int); ("b", int)]
             [field "a" int] (field "b" int) [] ([("a", VInt 1)], []) int);
      reflexivity.
  - apply (missing_field_is_reported_by_name (runtime []) strict_keys 1 TwoInts
             [(VStr "a", VInt 1)] [("a", int); ("b", int)]
             [field "a" int] (field "b" int) [] ([("a", VInt 1)], []) int);
      reflexivity.
Defined.

(** When the annotations of the record do not resolve, [from_dict] raises
    [ForwardReferenceError] with the message of the [NameError], whatever
    the raw record and the configuration are: before the check for
    unexpected keys and before any field. *)
Theorem unresolved_annotation_is_reported_first :
  forall rt fuel data_class data config message,
    get_type_hints data_class
      (forward_references match config with Some c => c | None => default_config end)
    = Raise (Python NameError message) ->
    from_dict rt fuel data_class data config
    = Raise (ForwardReferenceError message).
Proof.
  intros rt fuel data_class data config message H.
  unfold from_dict, from_dict_body, get_data_class_hints. rewrite H. reflexivity.
Qed.

Lemma unresolved_annotation_is_reported_first_witness :
  from_dict (runtime []) 0 Dangling [(VStr "unexpected", VInt 1)] (Some strict_keys)
  = Raise (ForwardReferenceError "name 'Node' is not defined").
Proof.
  apply (unresolved_annotation_is_reported_first (runtime []) 0 Dangling
           [(VStr "unexpected", VInt 1)] (Some strict_keys)
           "name 'Node' is not defined").
  reflexivity.
Defined.

End AssemblerErrorProperties.

(** ** The transformer without hooks and casts returns its input *)

Module PassThroughProperties.
Import Examples Inputs ExtractOptionalProperties TerminationProperties
       IdentityProperties.

Lemma map_r_fixed {A : Type} (f : A -> result A) (xs : list A) :
  Forall (fun x => f x = Ok x) xs -> map_r f xs = Ok xs.
Proof.
  induction 1 as [|x xs Hx _ IH]; simpl; [reflexivity|].
  rewrite Hx, IH. reflexivity.
Qed.

Lemma unique_members_head (flat : list Ty) : forall acc a,
  exists rest,
    fold_left (fun acc p => if existsb (Ty_eqb p) acc then acc else acc ++ [p])
              flat (a :: acc)
    = a :: rest.
Proof.
  induction flat as [|p flat IH]; intros acc a; simpl.
  - exists acc. reflexivity.
  - destruct (Ty_eqb p a || existsb (Ty_eqb p) acc).
    + apply IH.
    + apply (IH (acc ++ [p]) a).
Qed.

(** Peeling a well-built Optional succeeds and gives a well-built type. *)
Lemma extract_optional_transformable target_type :
  is_optional target_type = true ->
  transformable target_type = true ->
  exists peeled,
    extract_optional target_type = Ok peeled /\ transformable peeled = true.
Proof.
  intros Ho Hwf. pose proof (OptionalProperties.is_optional_is_union _ Ho) as Hu.
  destruct target_type as [ | |args| | | | | | | | ]; try discriminate Hu.
  cbn [transformable] in Hwf.
  apply andb_true_iff in Hwf. destruct Hwf as [Hwf Hall].
  apply andb_true_iff in Hwf. destruct Hwf as [Hflat Hsome].
  rewrite forallb_forall in Hflat, Hall.
  unfold extract_optional.
  replace (extract_generic (TUnion args) []) with args by (destruct args; reflexivity).
  set (others := filter is_not_NoneType args).
  assert (Hothers : forall m, In m others ->
                      is_union m = false /\ is_not_NoneType m = true
                      /\ transformable m = true).
  { intros m Hm. unfold others in Hm. apply filter_In in Hm.
    destruct Hm as [Hm Hnot]. repeat split; [|exact Hnot|apply Hall; exact Hm].
    apply negb_true_iff. apply (Hflat m Hm). }
  assert (others <> []) as Hne.
  { apply existsb_exists in Hsome. destruct Hsome as (m & Hm & Hnot).
    intros E. assert (In m others) as Hin by (apply filter_In; split; assumption).
    rewrite E in Hin. destruct Hin. }
  destruct others as [|o others'] eqn:Eo; [destruct (Hne eq_refl)|].
  eexists. split; [reflexivity|].
  unfold Union_getitem. rewrite flat_map_members
    by (apply Forall_forall; intros m Hm; apply (Hothers m Hm)).
  cbn [fold_left existsb app].
  destruct (unique_members_head others' [] o) as [rest Hrest].
  assert (Hin : forall m, In m (o :: rest) -> In m (o :: others')).
  { intros m Hm. rewrite <- Hrest in Hm.
    apply unique_members_In in Hm. destruct Hm as [[Hm|[]]|Hm];
      [left; exact Hm|right; exact Hm]. }
  rewrite Hrest. destruct rest as [|r rest].
  - apply (Hothers o). left. reflexivity.
  - cbn [transformable]. apply andb_true_iff. split; [apply andb_true_iff; split|].
    + apply forallb_forall. intros m Hm. apply negb_true_iff.
      apply (Hothers m (Hin m Hm)).
    + apply existsb_exists. exists o. split; [left; reflexivity|].
      apply (Hothers o). left. reflexivity.
    + apply forallb_forall. intros m Hm. apply (Hothers m (Hin m Hm)).
Qed.

(** The type an element is transformed against is well built when the
    alias is. *)
Lemma element_type_transformable origin args defaults item_cls :
  transformable (TGeneric origin args) = true ->
  Forall (fun t => t = TAny) defaults ->
  In item_cls (extract_generic (TGeneric origin args) defaults) ->
  transformable item_cls = true.
Proof.
  intros Hwf Hdefaults Hin. rewrite Forall_forall in Hdefaults.
  destruct args as [args|]; cbn [extract_generic] in Hin.
  - cbn [transformable] in Hwf. apply andb_true_iff in Hwf.
    destruct Hwf as [_ Hall]. rewrite forallb_forall in Hall.
    destruct args as [|a args]; [rewrite (Hdefaults _ Hin); reflexivity|].
    apply Hall. exact Hin.
  - rewrite (Hdefaults _ Hin). reflexivity.
Qed.

(** With no hook registered and an empty cast list, [transform_value]
    returns the value it is given: it neither raises nor changes
    anything.  This is so for every declared type built from [Any],
    classes, [Literal], [NewType], [InitVar], [Type[X]], unions that
    [typing] has flattened and that have a member other than [NoneType],
    and the aliases whose origin is [list], [tuple], [dict], [set],
    [frozenset] or [Mapping], a mapping alias having no argument or two;
    and for every value that is [None], a number, a string, an instance of
    a dataclass, a class, or a list, tuple, dictionary, set or frozenset
    of such values, of exactly these builtin classes.  The fuel has to
    exceed the size of the declared type. *)
Theorem transform_value_without_hooks_returns_its_input :
  forall call fuel target_type value,
    transformable target_type = true ->
    well_formed value = true ->
    ty_size target_type < fuel ->
    transform_value call fuel [] [] target_type value = Ok value.
Proof.
  intros call. induction fuel as [|fuel IH]; intros target_type value Ht Hwf Hsize;
    [lia|].
  cbn [transform_value]. rewrite transform_value_body_without_hooks.
  unfold peel_and_recurse.
  destruct (is_optional target_type) eqn:Ho.
  - destruct (extract_optional_transformable target_type Ho Ht)
      as (peeled & Hpeel & Hpt).
    pose proof (extract_optional_smaller _ _ Ho Hpeel) as Hlt.
    rewrite Hpeel. destruct value; try reflexivity; cbn [bind];
      apply IH; try assumption; lia.
  - destruct (is_generic_collection target_type) eqn:Hc; [|reflexivity].
    cbn [andb].
    destruct target_type as [ | | |origin args| | | | | | | ]; try discriminate Hc.
    cbn [extract_origin_collection].
    destruct (isinstance value origin) eqn:Hinst; [|reflexivity].
    assert (Hitem : forall defaults item_cls v,
               Forall (fun t => t = TAny) defaults ->
               In item_cls (extract_generic (TGeneric origin args) defaults) ->
               well_formed v = true ->
               transform_value call fuel [] [] item_cls v = Ok v).
    { intros defaults item_cls v Hd Hin Hv. apply IH.
      - apply (element_type_transformable origin args defaults); assumption.
      - exact Hv.
      - pose proof (element_type_smaller (TGeneric origin args) defaults item_cls
                      Hc Hd Hin). lia. }
    destruct (issubclass (class_of value) c_dict) eqn:Hdict.
    + destruct value; try discriminate Hdict.
      assert (exists key_cls item_cls,
                 extract_generic (TGeneric origin args) [TAny; TAny]
                 = [key_cls; item_cls]) as (key_cls & item_cls & He).
      { destruct args as [args|]; [|eexists; eexists; reflexivity].
        cbn [transformable] in Ht. apply andb_true_iff in Ht.
        destruct Ht as [Ht _]. apply andb_true_iff in Ht. destruct Ht as [_ Hlen].
        unfold isinstance in Hinst. cbn [class_of] in Hinst. rewrite Hinst in Hlen.
        destruct args as [|k [|v [|x rest]]]; try discriminate Hlen;
          eexists; eexists; reflexivity. }
      rewrite He. cbn [unpack2 bind dict_items].
      cbn [well_formed] in Hwf. apply andb_true_iff in Hwf.
      destruct Hwf as [Hkeys Hitems]. rewrite forallb_forall in Hitems.
      rewrite (map_r_fixed _ items).
      * cbn [bind class_of construct_mapping]. unfold dict_of_pairs.
        rewrite (dict_of_distinct_pairs items [] Hkeys). cbn [app].
        rewrite (dict_of_distinct_pairs items [] Hkeys). reflexivity.
      * apply Forall_forall. intros [k v] Hkv.
        specialize (Hitems _ Hkv). apply andb_true_iff in Hitems.
        destruct Hitems as [Hk Hv]. cbn [fst snd] in *.
        rewrite (Hitem [TAny; TAny] key_cls k), (Hitem [TAny; TAny] item_cls v);
          try reflexivity; try assumption; try (repeat constructor);
          rewrite He; simpl; tauto.
    + assert (exists item_cls rest,
                 extract_generic (TGeneric origin args) [TAny] = item_cls :: rest)
        as (item_cls & rest & He).
      { destruct args as [[|a args]|]; eexists; eexists; reflexivity. }
      rewrite He. cbn [index nth_error bind].
      assert (Helement : forall v, well_formed v = true ->
                                   transform_value call fuel [] [] item_cls v = Ok v).
      { intros v Hv. apply (Hitem [TAny] item_cls v); [repeat constructor| |exact Hv].
        rewrite He. left. reflexivity. }
      assert (Horigin : PyClass_eqb origin c_str = false).
      { assert (Hcontainer : container_origin origin = true).
        { destruct args as [args|]; cbn [transformable] in Ht; [|exact Ht].
          apply andb_true_iff in Ht. destruct Ht as [Ht _].
          apply andb_true_iff in Ht. destruct Ht as [Ht _]. exact Ht. }
        destruct origin; try discriminate Hcontainer; reflexivity. }
      unfold is_generic_collection in Hc. cbn in Hc.
      apply andb_true_iff in Hc. destruct Hc as [Hcoll _].
      destruct value; try discriminate Hdict;
        try (destruct origin; discriminate);
        cbn [iterate bind class_of well_formed] in *;
        try (apply andb_true_iff in Hwf; destruct Hwf as [Hdistinct Hwf]);
        rewrite forallb_forall in Hwf;
        (rewrite (map_r_fixed _ items)
          by (apply Forall_forall; intros x Hx; apply Helement; apply Hwf; exact Hx));
        cbn [bind construct]; try reflexivity;
        unfold set_of_items;
        rewrite (set_of_distinct_items items [] Hdistinct); reflexivity.
Qed.

Lemma transform_value_without_hooks_returns_its_input_witness :
  let target_type := TGeneric c_dict (Some [str; Optional (Set_ int)]) in
  let value := VDict [(VStr "a", VSet one_two); (VStr "b", VNone)] in
  transformable target_type = true
  /\ well_formed value = true
  /\ transform_value builtin_call 9 [] [] target_type value = Ok value.
Proof.
  intros target_type value. split; [reflexivity|]. split; [reflexivity|].
  apply (transform_value_without_hooks_returns_its_input builtin_call 9
           target_type value); [reflexivity|reflexivity|].
  apply Nat.ltb_lt. reflexivity.
Defined.

End PassThroughProperties.
